(** * DNSBL reputation monitor: lookup engine and monitoring run pipeline

    A shallow embedding of [app/services/dnsbl_checker.py] and
    [app/services/monitoring.py].

    Conventions of the embedding.
    - Time is an integer number of microseconds (the resolution of
      [datetime.now().timestamp()]); one logical clock feeds the limiter, the
      cache timer and the [utcnow()] stamps.
    - Coroutines are run one after the other.  [asyncio.Lock] in
      [RateLimiter.acquire] is held over the whole body, sleep included, so
      calls to [acquire] are serialised by the code itself; for
      [asyncio.gather] the tasks are run in list order, which is the schedule
      of a semaphore of size one, and results are returned in list order as
      [gather] does.
    - Python exceptions are values of [exn]; a computation returns an
      [outcome] together with the state it leaves behind, so that mutations
      made before a [raise] persist as they do in Python.
    - The DNS resolver, storage failures and the webhook endpoint are the
      environment: they are oracles in [Env]. *)

From Stdlib Require Import ZArith Lia Ascii.
From stdpp Require Import gmap strings list pretty.

Open Scope Z_scope.

(** ** Exceptions and outcomes *)

Inductive exn : Type :=
  | RuntimeError (msg : string)
  | TypeError (msg : string)
  | IndexError (msg : string)
  | ValueError (msg : string)
  | AttributeError (msg : string)
  | OtherError (msg : string).

(** [str(e)] *)
Definition exn_str (e : exn) : string :=
  match e with
  | RuntimeError m | TypeError m | IndexError m
  | ValueError m | AttributeError m | OtherError m => m
  end.

Inductive outcome (A : Type) : Type :=
  | Ok (a : A)
  | Raise (e : exn).
Arguments Ok {A} a.
Arguments Raise {A} e.

(** ** Rows of the store ([app/models/database.py]) *)

Record Target : Type := mkTarget {
  target_id : Z;
  target_target : string;
  target_enabled : bool
}.

Record Zone : Type := mkZone {
  zone_id : Z;
  zone_zone : string;
  zone_enabled : bool
}.

(** [a_records] is stored as [json.dumps] of the list; the list itself is
    kept here. *)
Record CheckResultRow : Type := mkRow {
  cr_target_id : Z;
  cr_zone_id : Z;
  cr_status : string;
  cr_a_records : option (list string);
  cr_error_reason : option string;
  cr_last_seen : Z;
  cr_last_checked : Z;
  cr_run_id : Z
}.

Record MonitorRun : Type := mkRun {
  run_id : Z;
  run_triggered_by : string;
  run_status : string;
  run_error_message : option string;
  run_total_targets : Z;
  run_total_zones : Z;
  run_total_checks : Z;
  run_listed_count : Z;
  run_blocked_count : Z;
  run_error_count : Z;
  run_started_at : Z;
  run_finished_at : option Z;
  run_duration_seconds : option Z
}.

Record Alert : Type := mkAlert {
  alert_type : string;
  alert_target_id : option Z;
  alert_zone : string;
  alert_old_status : option string;
  alert_new_status : string;
  alert_message : string;
  alert_webhook_sent : bool;
  alert_webhook_status : option string;
  alert_webhook_error : option string;
  alert_created_at : Z
}.

(** ** Cache entries, observable events, program state *)

(** One link of the TTL cache: the key, the cached dict
    [{"status": ..., "records": ...}] and the expiry time. *)
Record CacheEntry : Type := mkEntry {
  ce_key : string;
  ce_value : string * list string;
  ce_expires : Z
}.

(** Ghost trace used to state ordering properties of a run. *)
Inductive event : Type :=
  | EvGuardTaken
  | EvRunCreated (run : Z)
  | EvWebhookDispatch (run : Z)
  | EvGuardReleased.

Record State : Type := mkState {
  clock : Z;
  (* RateLimiter.requests : defaultdict(list) *)
  requests : gmap string (list Z);
  (* DNSBLChecker._cache, least recently used first *)
  cache : list CacheEntry;
  (* resolver calls issued so far, oldest first: (query name, rrtype) *)
  dns_log : list (string * string);
  (* MonitoringService._is_running *)
  _is_running : bool;
  (* number of statements sent to the store so far *)
  db_ops : nat;
  db_targets : list Target;
  db_zones : list Zone;
  db_check_results : list CheckResultRow;
  db_runs : gmap Z MonitorRun;
  db_alerts : list Alert;
  trace : list event
}.

Definition set_clock (v : Z) (s : State) : State :=
  mkState v (requests s) (cache s) (dns_log s) (_is_running s) (db_ops s)
    (db_targets s) (db_zones s) (db_check_results s) (db_runs s) (db_alerts s) (trace s).
Definition set_requests (v : gmap string (list Z)) (s : State) : State :=
  mkState (clock s) v (cache s) (dns_log s) (_is_running s) (db_ops s)
    (db_targets s) (db_zones s) (db_check_results s) (db_runs s) (db_alerts s) (trace s).
Definition set_cache (v : list CacheEntry) (s : State) : State :=
  mkState (clock s) (requests s) v (dns_log s) (_is_running s) (db_ops s)
    (db_targets s) (db_zones s) (db_check_results s) (db_runs s) (db_alerts s) (trace s).
Definition set_dns_log (v : list (string * string)) (s : State) : State :=
  mkState (clock s) (requests s) (cache s) v (_is_running s) (db_ops s)
    (db_targets s) (db_zones s) (db_check_results s) (db_runs s) (db_alerts s) (trace s).
Definition set_is_running (v : bool) (s : State) : State :=
  mkState (clock s) (requests s) (cache s) (dns_log s) v (db_ops s)
    (db_targets s) (db_zones s) (db_check_results s) (db_runs s) (db_alerts s) (trace s).
Definition set_db_ops (v : nat) (s : State) : State :=
  mkState (clock s) (requests s) (cache s) (dns_log s) (_is_running s) v
    (db_targets s) (db_zones s) (db_check_results s) (db_runs s) (db_alerts s) (trace s).
Definition set_check_results (v : list CheckResultRow) (s : State) : State :=
  mkState (clock s) (requests s) (cache s) (dns_log s) (_is_running s) (db_ops s)
    (db_targets s) (db_zones s) v (db_runs s) (db_alerts s) (trace s).
Definition set_runs (v : gmap Z MonitorRun) (s : State) : State :=
  mkState (clock s) (requests s) (cache s) (dns_log s) (_is_running s) (db_ops s)
    (db_targets s) (db_zones s) (db_check_results s) v (db_alerts s) (trace s).
Definition set_alerts (v : list Alert) (s : State) : State :=
  mkState (clock s) (requests s) (cache s) (dns_log s) (_is_running s) (db_ops s)
    (db_targets s) (db_zones s) (db_check_results s) (db_runs s) v (trace s).
Definition set_trace (v : list event) (s : State) : State :=
  mkState (clock s) (requests s) (cache s) (dns_log s) (_is_running s) (db_ops s)
    (db_targets s) (db_zones s) (db_check_results s) (db_runs s) (db_alerts s) v.

(** ** The environment *)

(** What [resolver.resolve] does with one query. *)
Inductive dns_reply : Type :=
  | Answer (records : list string)
  | NXDOMAIN
  | NoAnswer
  | Timeout
  | DNSException
  | Raises (e : exn).

(** One alert of the webhook payload. *)
Record PayloadAlert : Type := mkPayloadAlert {
  pa_type : string;
  pa_target : option string;
  pa_zone : string;
  pa_old_status : option string;
  pa_new_status : string;
  pa_message : string;
  pa_created_at : Z
}.

Record Payload : Type := mkPayload {
  p_run_id : Z;
  p_triggered_by : string;
  p_started_at : Z;
  p_listed_count : Z;
  p_blocked_count : Z;
  p_error_count : Z;
  p_alerts : list PayloadAlert
}.

Record Env : Type := mkEnv {
  (* RateLimiter.max_requests *)
  max_requests : Z;
  (* TTLCache ttl, in microseconds, and maxsize *)
  cache_ttl : Z;
  cache_maxsize : Z;
  (* settings.SPAMHAUS_ZONES *)
  spamhaus_zones : gset string;
  (* settings.DNS_CONCURRENCY; the request schema has ge=1 *)
  dns_concurrency : positive;
  (* settings.ALERT_WEBHOOK_URL *)
  alert_webhook_url : string;
  (* the resolver: earlier calls, query name, rrtype; the reply and how long
     it took *)
  resolve : list (string * string) -> string -> string -> dns_reply * nat;
  (* storage failure: the n-th statement raises with this message *)
  db_fault : nat -> option string;
  (* the webhook endpoint: None on a 2xx answer, else the error text *)
  http_post : Payload -> option string
}.

(** ** State and exception monad *)

Definition M (A : Type) : Type := State -> outcome A * State.

Definition ret {A} (a : A) : M A := fun s => (Ok a, s).
Definition raise {A} (e : exn) : M A := fun s => (Raise e, s).
Definition bind {A B} (m : M A) (k : A -> M B) : M B :=
  fun s => match m s with
           | (Ok a, s') => k a s'
           | (Raise e, s') => (Raise e, s')
           end.
Definition modify (f : State -> State) : M unit := fun s => (Ok tt, f s).
Definition gets {A} (f : State -> A) : M A := fun s => (Ok (f s), s).

#[export] Instance M_ret : MRet M := @ret.
#[export] Instance M_bind : MBind M := fun A B k m => bind m k.

(** [try: body  except Exception as e: handler e] *)
Definition try_except {A} (body : M A) (handler : exn -> M A) : M A :=
  fun s => match body s with
           | (Ok a, s') => (Ok a, s')
           | (Raise e, s') => handler e s'
           end.

(** [try: body  finally: fin] *)
Definition try_finally {A} (body : M A) (fin : M unit) : M A :=
  fun s => match body s with
           | (r, s') => match fin s' with
                        | (Ok _, s'') => (r, s'')
                        | (Raise e, s'') => (Raise e, s'')
                        end
           end.

Definition second : Z := 1000000.

(** [datetime.now().timestamp()], [datetime.utcnow()], the cache timer *)
Definition now : M Z := gets clock.

(** [await asyncio.sleep(d)] *)
Definition sleep (d : Z) : M unit := modify (fun s => set_clock (clock s + d) s).

Definition emit (e : event) : M unit := modify (fun s => set_trace (trace s ++ [e]) s).

(** ** IPv4 addresses

    Python's [ipaddress] module (standard library): [IPv4Address(text)] and
    membership in an [IPv4Network]. *)

Module ipaddress.

(** [text.split(".")] *)
Fixpoint split_dot_from (cur text : string) : list string :=
  match text with
  | EmptyString => [cur]
  | String c rest =>
      if Ascii.eqb c "."%char then cur :: split_dot_from "" rest
      else split_dot_from (cur +:+ String c "") rest
  end.
Definition split_dot (text : string) : list string := split_dot_from "" text.

Definition is_ascii_digit (c : ascii) : bool :=
  let n := Z.of_nat (nat_of_ascii c) in (48 <=? n) && (n <=? 57).

Definition digit_value (c : ascii) : Z := Z.of_nat (nat_of_ascii c) - 48.

(** [int(octet_str, 10)] on a string of decimal digits *)
Definition int_of_digits (digits : string) : Z :=
  foldl (fun acc c => 10 * acc + digit_value c) 0 (String.list_ascii_of_string digits).

(** [IPv4Address._parse_octet]; [None] stands for [ValueError] *)
Definition _parse_octet (octet_str : string) : option Z :=
  match octet_str with
  | EmptyString => None
  | String c0 _ =>
      if negb (forallb is_ascii_digit (String.list_ascii_of_string octet_str)) then None
      else if (3 <? String.length octet_str)%nat then None
      else if negb (String.eqb octet_str "0") && Ascii.eqb c0 "0"%char then None
      else
        let octet_int := int_of_digits octet_str in
        if 255 <? octet_int then None else Some octet_int
  end.

(** [int.from_bytes(octets, "big")] *)
Definition from_bytes_big (octets : list Z) : Z :=
  foldl (fun acc o => 256 * acc + o) 0 octets.

(** [IPv4Address(address)] for a string; [None] stands for
    [AddressValueError]. The result is the 32-bit integer [_ip]. *)
Definition IPv4Address (address : string) : option Z :=
  if existsb (Ascii.eqb "/"%char) (String.list_ascii_of_string address) then None
  else if String.eqb address "" then None
  else
    let octets := split_dot address in
    if negb (length octets =? 4)%nat then None
    else from_bytes_big <$> mapM _parse_octet octets.

(** [ip.to_bytes(4, "big")] *)
Definition to_bytes_big (ip : Z) : list Z :=
  [Z.shiftr ip 24 `mod` 256; Z.shiftr ip 16 `mod` 256;
   Z.shiftr ip 8 `mod` 256; ip `mod` 256].

(** [".".join(parts)] *)
Fixpoint join_dot (parts : list string) : string :=
  match parts with
  | [] => ""
  | [p] => p
  | p :: rest => p +:+ "." +:+ join_dot rest
  end.

(** [str(ip_obj)] *)
Definition to_str (ip : Z) : string := join_dot (pretty <$> to_bytes_big ip).

(** [ip in IPv4Network(...)]: [ip & netmask == network_address] *)
Definition in_network (ip network_address netmask : Z) : bool :=
  Z.land ip netmask =? network_address.

End ipaddress.

(** ** Rate limiter *)

Module RateLimiter.

(** [[t for t in self.requests[zone] if t > cutoff]] *)
Definition recent (cutoff : Z) (stamps : list Z) : list Z :=
  filter (fun t => cutoff < t) stamps.

(** [RateLimiter.acquire]. The lock is held from the first statement to the
    last, so the body runs without interleaving. *)
Definition acquire (env : Env) (zone : string) : M unit :=
  now_ ← now;
  let cutoff := now_ - second in
  modify (fun s => set_requests (<[zone := recent cutoff (requests s !!! zone)]> (requests s)) s);;
  stamps ← gets (fun s => requests s !!! zone);
  (if max_requests env <=? Z.of_nat (length stamps) then
     match stamps with
     | [] => raise (IndexError "list index out of range")
     | oldest :: _ =>
         let sleep_time := oldest - cutoff in
         if 0 <? sleep_time then
           sleep sleep_time;;
           modify (fun s => set_requests (<[zone := recent cutoff (requests s !!! zone)]> (requests s)) s)
         else mret tt
     end
   else mret tt);;
  modify (fun s => set_requests (<[zone := (requests s !!! zone) ++ [now_]]> (requests s)) s).

(** Callers contending for the limiter: caller [i] asks at [arrivals !! i];
    the lock admits them in order, each as soon as it has arrived and the
    lock is free. The result lists, per caller, the time at which its
    [acquire] returned (the grant), or the exception it raised. *)
Fixpoint grants (env : Env) (zone : string) (arrivals : list Z) (s : State)
  : list (outcome Z) * State :=
  match arrivals with
  | [] => ([], s)
  | a :: rest =>
      let s0 := set_clock (Z.max a (clock s)) s in
      let '(r, s1) := acquire env zone s0 in
      let '(rs, s2) := grants env zone rest s1 in
      (match r with Ok _ => Ok (clock s1) | Raise e => Raise e end :: rs, s2)
  end.

(** Number of grants in the window [(t - 1s, t]]. *)
Definition grants_in_window (t : Z) (gs : list (outcome Z)) : nat :=
  length (List.filter (fun g => match g with
                                | Ok g => (t - second <? g) && (g <=? t)
                                | Raise _ => false
                                end) gs).

End RateLimiter.

(** ** Result cache *)

(** Modelled from the spec: the Result Cache of section 4.2, which the code
    takes from the third-party [cachetools.TTLCache] (not under src/):
    entries expire [ttl] after they were stored, at most [maxsize] entries
    are held, the least recently used live entry is evicted when full,
    [get] returns an entry only if present and unexpired. *)
Module TTLCache.

(** [expire(time)]: drop every link with [not (time < link.expires)] *)
Definition expire (time : Z) (c : list CacheEntry) : list CacheEntry :=
  filter (fun e => time < ce_expires e) c.

Definition find_key (key : string) (c : list CacheEntry) : option CacheEntry :=
  List.find (fun e => String.eqb (ce_key e) key) c.

Definition remove_key (key : string) (c : list CacheEntry) : list CacheEntry :=
  List.filter (fun e => negb (String.eqb (ce_key e) key)) c.

(** [cache.get(key)]: [key in cache] holds for a live link only; reading
    the item moves its link to the most recently used end. *)
Definition get (key : string) : M (option (string * list string)) :=
  fun s =>
    match find_key key (cache s) with
    | Some e =>
        if bool_decide (clock s < ce_expires e)
        then (Ok (Some (ce_value e)), set_cache (remove_key key (cache s) ++ [e]) s)
        else (Ok None, s)
    | None => (Ok None, s)
    end.

(** [cache[key] = value] *)
Definition set (env : Env) (key : string) (value : string * list string) : M unit :=
  fun s =>
    let time := clock s in
    let live := expire time (cache s) in
    if cache_maxsize env <? 1 then
      (Raise (ValueError "value too large"), set_cache live s)
    else
      let room :=
        match find_key key live with
        | Some _ => live
        | None => drop (Z.to_nat (Z.of_nat (length live) + 1 - cache_maxsize env)) live
        end in
      (Ok tt, set_cache (remove_key key room ++ [mkEntry key value (time + cache_ttl env)]) s).

End TTLCache.

(** ** DNSBL checker *)

Record CheckResult : Type := mkCheckResult {
  cr_zone : string;
  status : string;
  a_records : list string;
  txt_records : list string;
  error_reason : option string
}.

(** The dicts appended to the three buckets. *)
Record ListedEntry : Type := mkListed {
  le_zone : string; le_a : list string; le_txt : list string }.
Record BlockedEntry : Type := mkBlocked {
  be_zone : string; be_a : list string; be_error : option string }.
Record ErrorEntry : Type := mkError {
  ee_zone : string; ee_error : string }.

Record TargetResult : Type := mkTargetResult {
  target : string;
  target_type : string;
  listed : list ListedEntry;
  blocked : list BlockedEntry;
  errors : list ErrorEntry;
  not_listed_zones_count : Z
}.

Record Summary : Type := mkSummary {
  total_ips : Z;
  listed_ips : Z;
  blocked_ips : Z;
  error_ips : Z
}.

(** [await asyncio.gather( *tasks, return_exceptions=True)]: every task runs;
    an exception raised by a task becomes that task's entry of the result. *)
Fixpoint gather {A} (tasks : list (M A)) : M (list (outcome A)) :=
  match tasks with
  | [] => mret []
  | task :: rest =>
      fun s => let '(r, s') := task s in (rs ← gather rest; mret (r :: rs)) s'
  end.

Module DNSBLChecker.

Definition _make_cache_key (target zone rrtype : string) : string :=
  target +:+ ":" +:+ zone +:+ ":" +:+ rrtype.

Definition _get_cached (target zone rrtype : string)
  : M (option (string * list string)) :=
  TTLCache.get (_make_cache_key target zone rrtype).

Definition _set_cache (env : Env) (target zone rrtype : string)
    (result : string * list string) : M unit :=
  TTLCache.set env (_make_cache_key target zone rrtype) result.

Definition _is_spamhaus_blocked (ip_str : string) : bool :=
  match ipaddress.IPv4Address ip_str with
  | Some ip => ipaddress.in_network ip 0x7FFFFF00 0xFFFFFF00
  | None => false
  end.

Definition _is_spamhaus_listed (ip_str : string) : bool :=
  match ipaddress.IPv4Address ip_str with
  | Some ip => ipaddress.in_network ip 0x7F000000 0xFFFFFF00
  | None => false
  end.

Definition _build_dnsbl_query (ip zone : string) : string :=
  match ipaddress.IPv4Address ip with
  | Some ip_obj =>
      let octets := ipaddress.split_dot (ipaddress.to_str ip_obj) in
      let reversed_ip := ipaddress.join_dot (reverse octets) in
      reversed_ip +:+ "." +:+ zone
  | None => ip +:+ "." +:+ zone
  end.

(** [await self.resolver.resolve(query_target, rrtype)]: one network call,
    logged, taking the time the environment says. *)
Definition resolver_resolve (env : Env) (query_target rrtype : string) : M dns_reply :=
  fun s =>
    let '(reply, latency) := resolve env (dns_log s) query_target rrtype in
    (Ok reply,
     set_clock (clock s + Z.of_nat latency)
       (set_dns_log (dns_log s ++ [(query_target, rrtype)]) s)).

Definition _query_dns (env : Env) (target zone rrtype : string)
  : M (string * list string) :=
  RateLimiter.acquire env zone;;
  cached ← _get_cached target zone rrtype;
  match cached with
  | Some c => mret (c.1, c.2)
  | None =>
      let query_target := _build_dnsbl_query target zone in
      reply ← resolver_resolve env query_target rrtype;
      match reply with
      | Answer records =>
          _set_cache env target zone rrtype ("success", records);;
          mret ("success", records)
      | NXDOMAIN =>
          _set_cache env target zone rrtype ("nxdomain", []);;
          mret ("nxdomain", [])
      | NoAnswer =>
          _set_cache env target zone rrtype ("noanswer", []);;
          mret ("noanswer", [])
      | Timeout =>
          _set_cache env target zone rrtype ("timeout", []);;
          mret ("timeout", [])
      | DNSException =>
          _set_cache env target zone rrtype ("error", []);;
          mret ("error", [])
      | Raises e => raise e
      end
  end.

(** [x in [a, b]] on strings *)
Definition in_pair (x a b : string) : bool := String.eqb x a || String.eqb x b.

Definition check_zone (env : Env) (target zone : string) (include_txt : bool)
  : M CheckResult :=
  '(a_status, a_records) ← _query_dns env target zone "A";
  if in_pair a_status "nxdomain" "noanswer" then
    mret (mkCheckResult zone "not_listed" [] [] None)
  else if in_pair a_status "timeout" "error" then
    mret (mkCheckResult zone "error" [] [] (Some a_status))
  else
    match a_records with
    | [] => mret (mkCheckResult zone "not_listed" [] [] None)
    | _ :: _ =>
        if bool_decide (zone ∈ spamhaus_zones env)
           && existsb _is_spamhaus_blocked a_records
        then mret (mkCheckResult zone "blocked" a_records [] (Some "Blocked/limits"))
        else
          txt_records ←
            (if include_txt
             then '(_, txt) ← _query_dns env target zone "TXT"; mret txt
             else mret []);
          mret (mkCheckResult zone "listed" a_records txt_records None)
    end.

Definition exn_class (e : exn) : string :=
  match e with
  | RuntimeError _ => "RuntimeError"
  | TypeError _ => "TypeError"
  | IndexError _ => "IndexError"
  | ValueError _ => "ValueError"
  | AttributeError _ => "AttributeError"
  | OtherError _ => "Exception"
  end.

(** [result.error_reason or "Unknown error"] *)
Definition reason_or_unknown (r : option string) : string :=
  match r with
  | Some txt => if String.eqb txt "" then "Unknown error" else txt
  | None => "Unknown error"
  end.

(** The aggregation loop of [check_target],
    [for zone, result in results: ...], on the local variables
    [listed], [blocked], [errors] and [not_listed_count]. An entry of
    [results] that is an exception object cannot be unpacked into
    [zone, result]: the [for] statement raises [TypeError] there. An entry
    that unpacks is a pair whose second component is a [CheckResult], for
    which [isinstance(result, Exception)] is false. *)
Fixpoint aggregate (results : list (outcome (string * CheckResult)))
    (listed : list ListedEntry) (blocked : list BlockedEntry)
    (errors : list ErrorEntry) (not_listed_count : Z)
  : outcome (list ListedEntry * list BlockedEntry * list ErrorEntry * Z) :=
  match results with
  | [] => Ok (listed, blocked, errors, not_listed_count)
  | Raise e :: _ =>
      Raise (TypeError ("cannot unpack non-iterable " +:+ exn_class e +:+ " object"))
  | Ok (zone, result) :: rest =>
      if String.eqb (status result) "listed" then
        aggregate rest
          (listed ++ [mkListed zone (a_records result) (txt_records result)])
          blocked errors not_listed_count
      else if String.eqb (status result) "blocked" then
        aggregate rest listed
          (blocked ++ [mkBlocked zone (a_records result) (error_reason result)])
          errors not_listed_count
      else if String.eqb (status result) "error" then
        aggregate rest listed blocked
          (errors ++ [mkError zone (reason_or_unknown (error_reason result))])
          not_listed_count
      else if String.eqb (status result) "not_listed" then
        aggregate rest listed blocked errors (not_listed_count + 1)
      else aggregate rest listed blocked errors not_listed_count
  end.

(** [check_single] of [check_target] *)
Definition check_single (env : Env) (target : string) (include_txt : bool)
    (zone : string) : M (string * CheckResult) :=
  result ← check_zone env target zone include_txt;
  mret (zone, result).

(** The [results] list of [check_target]. *)
Definition zone_results (env : Env) (target : string) (zones : list string)
    (include_txt : bool) : M (list (outcome (string * CheckResult))) :=
  gather (check_single env target include_txt <$> zones).

Definition check_target (env : Env) (target : string) (zones : list string)
    (include_txt : bool) (concurrency : positive) : M TargetResult :=
  let target_type :=
    match ipaddress.IPv4Address target with
    | Some _ => "ip"
    | None => "domain"
    end in
  results ← zone_results env target zones include_txt;
  match aggregate results [] [] [] 0 with
  | Ok (listed, blocked, errors, not_listed_count) =>
      mret (mkTargetResult target target_type listed blocked errors not_listed_count)
  | Raise e => raise e
  end.

Definition nonempty {A} (l : list A) : bool :=
  match l with [] => false | _ :: _ => true end.

(** The summary loop of [check_multiple] on [listed_ips], [blocked_ips],
    [error_ips] and [results]. *)
Fixpoint summarise (target_results : list (outcome TargetResult))
    (listed_ips blocked_ips error_ips : Z) (results : list TargetResult)
  : Z * Z * Z * list TargetResult :=
  match target_results with
  | [] => (listed_ips, blocked_ips, error_ips, results)
  | Raise _ :: rest => summarise rest listed_ips blocked_ips (error_ips + 1) results
  | Ok result :: rest =>
      summarise rest
        (if nonempty (listed result) then listed_ips + 1 else listed_ips)
        (if nonempty (blocked result) then blocked_ips + 1 else blocked_ips)
        (if nonempty (errors result) && negb (nonempty (listed result))
            && negb (nonempty (blocked result))
         then error_ips + 1 else error_ips)
        (results ++ [result])
  end.

Definition check_multiple (env : Env) (targets zones : list string)
    (include_txt : bool) (concurrency : positive)
  : M (Summary * list TargetResult) :=
  target_results ←
    gather ((fun t => check_target env t zones include_txt concurrency) <$> targets);
  let '(listed_ips, blocked_ips, error_ips, results) :=
    summarise target_results 0 0 0 [] in
  mret (mkSummary (Z.of_nat (length targets)) listed_ips blocked_ips error_ips, results).

End DNSBLChecker.

(** ** Monitoring service

    The store is the session's view: [db.add] makes a row visible to later
    queries of the same session; [flush], [commit] and every query are
    statements sent to the database, any of which can fail. The session
    comes from [get_db_context] of [app/core/database.py]; what is modelled
    are the statements issued inside the [with] block. *)

(** The local counters of [run_monitoring]. *)
Record Counts : Type := mkCounts {
  total_checks : Z;
  listed_count : Z;
  blocked_count : Z;
  error_count : Z
}.

Module MonitoringService.

(** One statement sent to the database. *)
Definition db_statement (env : Env) : M unit :=
  fun s =>
    let s' := set_db_ops (S (db_ops s)) s in
    match db_fault env (db_ops s) with
    | Some msg => (Raise (OtherError msg), s')
    | None => (Ok tt, s')
    end.

(** Assignments to attributes of the [run] object. *)
Definition update_run (run : Z) (f : MonitorRun -> MonitorRun) : M unit :=
  modify (fun s => set_runs (alter f run (db_runs s)) s).

Definition started_at_of (run : Z) (s : State) : Z :=
  match db_runs s !! run with
  | Some r => run_started_at r
  | None => 0
  end.

(** [if ids: query = query.filter(X.id.in_(ids))] *)
Definition id_selected (ids : option (list Z)) (id : Z) : bool :=
  match ids with
  | None | Some [] => true
  | Some l => bool_decide (id ∈ l)
  end.

Definition query_targets (env : Env) (target_ids : option (list Z)) : M (list Target) :=
  db_statement env;;
  gets (fun s => List.filter (fun t => target_enabled t && id_selected target_ids (target_id t))
                   (db_targets s)).

Definition query_zones (env : Env) (zone_ids : option (list Z)) : M (list Zone) :=
  db_statement env;;
  gets (fun s => List.filter (fun z => zone_enabled z && id_selected zone_ids (zone_id z))
                   (db_zones s)).

(** The snapshot loop: [previous_statuses[(target.id, pr.zone_id)] = pr.status] *)
Fixpoint snapshot (env : Env) (targets : list Target) (zones : list Zone)
    (previous_statuses : gmap (Z * Z) string) : M (gmap (Z * Z) string) :=
  match targets with
  | [] => mret previous_statuses
  | target :: rest =>
      db_statement env;;
      previous_results ← gets (fun s =>
        List.filter (fun pr => (cr_target_id pr =? target_id target)
                               && bool_decide (cr_zone_id pr ∈ zone_id <$> zones))
          (db_check_results s));
      snapshot env rest zones
        (foldl (fun m pr => <[(target_id target, cr_zone_id pr) := cr_status pr]> m)
           previous_statuses previous_results)
  end.

(** [json.dumps(a_records) if a_records else None] *)
Definition dumps_or_none (a_records : list string) : option (list string) :=
  match a_records with
  | [] => None
  | _ :: _ => Some a_records
  end.

Definition same_pair (target : Target) (zone : Zone) (row : CheckResultRow) : Prop :=
  cr_target_id row = target_id target /\ cr_zone_id row = zone_id zone.

#[export] Instance same_pair_dec target zone row : Decision (same_pair target zone row).
Proof. unfold same_pair. apply _. Defined.

(** The assignments of the [if existing:] branch. *)
Definition update_existing (status : string) (a_records : list string)
    (run : Z) (error_reason : option string) (time : Z)
    (existing : CheckResultRow) : CheckResultRow :=
  mkRow (cr_target_id existing) (cr_zone_id existing)
    status
    (dumps_or_none a_records)
    error_reason
    (if negb (String.eqb status "not_listed") then time else cr_last_seen existing)
    time
    run.

Definition _save_check_result (env : Env) (target : Target) (zone : Zone)
    (status : string) (a_records : list string) (run : Z)
    (error_reason : option string) : M unit :=
  db_statement env;;
  existing ← gets (fun s => list_find (same_pair target zone) (db_check_results s));
  time ← now;
  match existing with
  | Some (i, row) =>
      modify (fun s => set_check_results
        (<[i := update_existing status a_records run error_reason time row]>
           (db_check_results s)) s)
  | None =>
      let result :=
        mkRow (target_id target) (zone_id zone) status (dumps_or_none a_records)
          error_reason
          (if negb (String.eqb status "not_listed") then time else time)
          time run in
      modify (fun s => set_check_results (db_check_results s ++ [result]) s)
  end.

Definition _create_alert (target : option Target) (alert_type zone : string)
    (old_status : option string) (new_status message : string) : M unit :=
  time ← now;
  let alert :=
    mkAlert alert_type (target_id <$> target) zone old_status new_status message
      false None None time in
  modify (fun s => set_alerts (db_alerts s ++ [alert]) s).

(** The alerts selected by [_send_webhooks], by position in the table. *)
Definition unsent_since (started_at : Z) (alerts : list Alert) : list (nat * Alert) :=
  List.filter (fun ia => negb (alert_webhook_sent ia.2) && (started_at <=? alert_created_at ia.2))
    (imap (fun i a => (i, a)) alerts).

(** [for alert in alerts: ...] on the selected rows *)
Definition mark (selected : list (nat * Alert)) (f : Alert -> Alert) : M unit :=
  modify (fun s => set_alerts
    (imap (fun i a => if bool_decide (i ∈ selected.*1) then f a else a) (db_alerts s)) s).

Definition mark_sent (a : Alert) : Alert :=
  mkAlert (alert_type a) (alert_target_id a) (alert_zone a) (alert_old_status a)
    (alert_new_status a) (alert_message a) true (Some "sent") (alert_webhook_error a)
    (alert_created_at a).

Definition mark_failed (err : string) (a : Alert) : Alert :=
  mkAlert (alert_type a) (alert_target_id a) (alert_zone a) (alert_old_status a)
    (alert_new_status a) (alert_message a) false (Some "failed") (Some err)
    (alert_created_at a).

(** One element of the ["alerts"] list of the payload. *)
Definition payload_alert (env : Env) (a : Alert) : M PayloadAlert :=
  target ←
    match alert_target_id a with
    | Some tid =>
        db_statement env;;
        found ← gets (fun s => List.find (fun t => target_id t =? tid) (db_targets s));
        match found with
        | Some t => mret (Some (target_target t))
        | None => raise (AttributeError "'NoneType' object has no attribute 'target'")
        end
    | None => mret None
    end;
  mret (mkPayloadAlert (alert_type a) target (alert_zone a) (alert_old_status a)
          (alert_new_status a) (alert_message a) (alert_created_at a)).

Definition _send_webhooks (env : Env) (run : Z) : M unit :=
  emit (EvWebhookDispatch run);;
  if String.eqb (alert_webhook_url env) "" then mret tt
  else
    db_statement env;;
    alerts ← gets (fun s => unsent_since (started_at_of run s) (db_alerts s));
    match alerts with
    | [] => mret tt
    | _ :: _ =>
        payload_alerts ← mapM (payload_alert env) alerts.*2;
        r ← gets (fun s => db_runs s !! run);
        let payload :=
          match r with
          | Some r => mkPayload (run_id r) (run_triggered_by r) (run_started_at r)
                        (run_listed_count r) (run_blocked_count r) (run_error_count r)
                        payload_alerts
          | None => mkPayload run "" 0 0 0 0 payload_alerts
          end in
        try_except
          (match http_post env payload with
           | None => mark alerts mark_sent;; db_statement env
           | Some err => raise (OtherError err)
           end)
          (fun e => mark alerts (mark_failed (exn_str e));; db_statement env)
    end.

(** [{z.zone: z for z in zones}] and [{t.target: t for t in targets}]: a
    later row replaces an earlier one with the same key. *)
Definition make_zone_map (zones : list Zone) : gmap string Zone :=
  foldl (fun m z => <[zone_zone z := z]> m) ∅ zones.
Definition make_target_map (targets : list Target) : gmap string Target :=
  foldl (fun m t => <[target_target t := t]> m) ∅ targets.

(** [for x in l: body], threading the local counters. *)
Fixpoint for_counts {A} (l : list A) (body : Counts -> A -> M Counts) (c : Counts)
  : M Counts :=
  match l with
  | [] => mret c
  | x :: rest => c' ← body c x; for_counts rest body c'
  end.

Section ProcessResults.
Context (env : Env) (previous_statuses : gmap (Z * Z) string)
        (zone_map : gmap string Zone) (run : Z).

(** Body of [for listed in result["listed"]] *)
Definition process_listed (target : Target) (c : Counts) (listed : ListedEntry)
  : M Counts :=
  match zone_map !! le_zone listed with
  | Some zone =>
      _save_check_result env target zone "listed" (le_a listed) run None;;
      let c' := mkCounts (total_checks c + 1) (listed_count c + 1)
                  (blocked_count c) (error_count c) in
      let prev_status := previous_statuses !! (target_id target, zone_id zone) in
      (if bool_decide (prev_status ≠ Some "listed") then
         _create_alert (Some target) "newly_listed" (zone_zone zone) prev_status "listed"
           ("Target " +:+ target_target target +:+ " is now listed on " +:+ zone_zone zone)
       else mret tt);;
      mret c'
  | None => mret c
  end.

(** Body of [for blocked in result["blocked"]] *)
Definition process_blocked (target : Target) (c : Counts) (blocked : BlockedEntry)
  : M Counts :=
  match zone_map !! be_zone blocked with
  | Some zone =>
      _save_check_result env target zone "blocked" (be_a blocked) run None;;
      let c' := mkCounts (total_checks c + 1) (listed_count c)
                  (blocked_count c + 1) (error_count c) in
      let prev_status := previous_statuses !! (target_id target, zone_id zone) in
      (if bool_decide (prev_status ≠ Some "blocked") then
         _create_alert (Some target) "blocked" (zone_zone zone) prev_status "blocked"
           ("Target " +:+ target_target target +:+ " is blocked on " +:+ zone_zone zone
            +:+ " (limits reached)")
       else mret tt);;
      mret c'
  | None => mret c
  end.

(** Body of [for error in result["errors"]] *)
Definition process_error (target : Target) (c : Counts) (error : ErrorEntry)
  : M Counts :=
  match zone_map !! ee_zone error with
  | Some zone =>
      _save_check_result env target zone "error" [] run (Some (ee_error error));;
      mret (mkCounts (total_checks c + 1) (listed_count c)
              (blocked_count c) (error_count c + 1))
  | None => mret c
  end.

(** Body of [for result in target_results] *)
Definition process_result (target_map : gmap string Target) (c : Counts)
    (result : TargetResult) : M Counts :=
  match target_map !! target result with
  | None => mret c
  | Some target =>
      c1 ← for_counts (listed result) (process_listed target) c;
      c2 ← for_counts (blocked result) (process_blocked target) c1;
      for_counts (errors result) (process_error target) c2
  end.

Definition process_results (target_map : gmap string Target)
    (target_results : list TargetResult) : M Counts :=
  for_counts target_results (process_result target_map) (mkCounts 0 0 0 0).
End ProcessResults.

Definition finish_run (status : string) (finished_at duration : Z)
    (error_message : option string) (r : MonitorRun) : MonitorRun :=
  mkRun (run_id r) (run_triggered_by r) status error_message
    (run_total_targets r) (run_total_zones r) (run_total_checks r)
    (run_listed_count r) (run_blocked_count r) (run_error_count r)
    (run_started_at r) (Some finished_at) (Some duration).

Definition set_totals (targets zones : Z) (r : MonitorRun) : MonitorRun :=
  mkRun (run_id r) (run_triggered_by r) (run_status r) (run_error_message r)
    targets zones (run_total_checks r)
    (run_listed_count r) (run_blocked_count r) (run_error_count r)
    (run_started_at r) (run_finished_at r) (run_duration_seconds r).

Definition set_counts (c : Counts) (r : MonitorRun) : MonitorRun :=
  mkRun (run_id r) (run_triggered_by r) (run_status r) (run_error_message r)
    (run_total_targets r) (run_total_zones r) (total_checks c)
    (listed_count c) (blocked_count c) (error_count c)
    (run_started_at r) (run_finished_at r) (run_duration_seconds r).

(** [int((run.finished_at - run.started_at).total_seconds())] *)
Definition duration_seconds (started_at finished_at : Z) : Z :=
  Z.quot (finished_at - started_at) second.

(** The statements inside [try:] up to the last [db.commit()], that is
    steps 2 to 6 of the run. The result tells whether the scope was empty,
    in which case the early [return run] follows, after the flag has been
    cleared by hand. *)
Definition run_checks (env : Env) (run : Z) (target_ids zone_ids : option (list Z))
  : M bool :=
  targets ← query_targets env target_ids;
  zones ← query_zones env zone_ids;
  update_run run (set_totals (Z.of_nat (length targets)) (Z.of_nat (length zones)));;
  db_statement env;;
  if negb (DNSBLChecker.nonempty targets) || negb (DNSBLChecker.nonempty zones) then
    finished_at ← now;
    update_run run (finish_run "completed" finished_at 0 None);;
    db_statement env;;
    modify (set_is_running false);;
    emit EvGuardReleased;;
    mret true
  else
    let zone_list := zone_zone <$> zones in
    previous_statuses ← snapshot env targets zones ∅;
    let target_list := target_target <$> targets in
    '(summary, target_results) ←
      DNSBLChecker.check_multiple env target_list zone_list false (dns_concurrency env);
    let zone_map := make_zone_map zones in
    let target_map := make_target_map targets in
    counts ← process_results env previous_statuses zone_map run target_map target_results;
    update_run run (set_counts counts);;
    finished_at ← now;
    started_at ← gets (started_at_of run);
    update_run run
      (finish_run "completed" finished_at (duration_seconds started_at finished_at) None);;
    db_statement env;;
    mret false.

(** The statements inside [try:]: the checks, then, unless the scope was
    empty, [await self._send_webhooks(db, run)] and [return run]. *)
Definition run_body (env : Env) (run : Z) (target_ids zone_ids : option (list Z))
  : M Z :=
  scope_empty ← run_checks env run target_ids zone_ids;
  if scope_empty : bool then mret run
  else _send_webhooks env run;; mret run.

(** The [except Exception as e:] handler *)
Definition run_failed (env : Env) (run : Z) (e : exn) : M Z :=
  finished_at ← now;
  started_at ← gets (started_at_of run);
  update_run run
    (finish_run "failed" finished_at (duration_seconds started_at finished_at)
       (Some (exn_str e)));;
  db_statement env;;
  raise e.

(** [run = MonitorRun(...); db.add(run)]: the row gets the next id. *)
Definition add_run (triggered_by : string) (started_at : Z) : M Z :=
  fun s =>
    let id := Z.of_nat (size (db_runs s)) + 1 in
    (Ok id,
     set_runs (<[id := mkRun id triggered_by "running" None 0 0 0 0 0 0
                        started_at None None]> (db_runs s)) s).

(** The statements between the flag test and [try:]: the flag is set and
    the run row is created and flushed. *)
Definition run_started (env : Env) (triggered_by : string) : M Z :=
  modify (set_is_running true);;
  emit EvGuardTaken;;
  started_at ← now;
  run ← add_run triggered_by started_at;
  db_statement env;;
  emit (EvRunCreated run);;
  mret run.

(** [run_monitoring]; the result is the id of the [MonitorRun] row, which
    is found in [db_runs]. *)
Definition run_monitoring (env : Env) (triggered_by : string)
    (target_ids zone_ids : option (list Z)) : M Z :=
  running ← gets _is_running;
  if running : bool then raise (RuntimeError "Monitoring is already running")
  else
    run ← run_started env triggered_by;
    try_finally
      (try_except (run_body env run target_ids zone_ids) (run_failed env run))
      (modify (set_is_running false);; emit EvGuardReleased).

End MonitoringService.

(** ** Concrete scenarios *)

Module Scenario.

(** A resolver that lists [1.2.3.4] on zone [z], answers with the quota
    address for [5.6.7.8] on [zen.spamhaus.org], times out for [9.9.9.9]
    on [z], fails outside the DNS exception hierarchy on zone [bad], and
    knows no other name. *)
Definition resolver (log : list (string * string)) (qname rrtype : string)
  : dns_reply * nat :=
  if String.eqb qname "8.7.6.5.zen.spamhaus.org" then (Answer ["127.255.255.10"], 10%nat)
  else if String.eqb qname "4.3.2.1.z" then (Answer ["127.0.0.2"], 10%nat)
  else if String.eqb qname "9.9.9.9.z" then (Timeout, 2500%nat)
  else if String.eqb qname "4.3.2.1.bad" then (Raises (OtherError "network down"), 0%nat)
  else (NXDOMAIN, 5%nat).

Definition no_fault (n : nat) : option string := None.

(** The defaults of [app/core/config.py], with a webhook configured. *)
Definition env : Env :=
  mkEnv 10 (3600 * second) 10000
    {[ "zen.spamhaus.org"; "sbl.spamhaus.org"; "xbl.spamhaus.org"; "pbl.spamhaus.org" ]}
    50 "http://hook.example/alerts" resolver no_fault (fun _ => None).

(** The same with one query per second and zone. *)
Definition env_limit1 : Env :=
  mkEnv 1 (3600 * second) 10000 (spamhaus_zones env) 50 "" resolver no_fault (fun _ => None).

(** The same as [env], but the statement number [n] sent to the store fails. *)
Definition env_fault (n : nat) : Env :=
  mkEnv 10 (3600 * second) 10000 (spamhaus_zones env) 50 "http://hook.example/alerts"
    resolver (fun k => if (k =? n)%nat then Some "database is locked" else None)
    (fun _ => None).

Definition targets : list Target :=
  [mkTarget 1 "1.2.3.4" true; mkTarget 2 "5.6.7.8" true].
Definition zones : list Zone :=
  [mkZone 1 "z" true; mkZone 2 "zen.spamhaus.org" true].

(** A fresh service over a store with two targets and two zones. *)
Definition initial : State :=
  mkState 0 ∅ [] [] false 0 targets zones [] ∅ [] [].

(** The same store while a run is in progress. *)
Definition busy : State := set_is_running true initial.

(** The pair (1, 1) was seen listed by an earlier run. *)
Definition seen_listed : State :=
  set_check_results [mkRow 1 1 "listed" (Some ["127.0.0.2"]) None 7 7 1] initial.

(** For the processing loops: the snapshot taken over [seen_listed], and
    results in which [1.2.3.4] is still listed on [z] while [5.6.7.8] is
    blocked on [zen.spamhaus.org] and could not be checked on [z]. *)
Definition previous : gmap (Z * Z) string := {[ (1, 1) := "listed" ]}.
Definition target_results : list TargetResult :=
  [mkTargetResult "1.2.3.4" "ip" [mkListed "z" ["127.0.0.2"] []] [] [] 1;
   mkTargetResult "5.6.7.8" "ip" []
     [mkBlocked "zen.spamhaus.org" ["127.255.255.10"] (Some "Blocked/limits")]
     [mkError "z" "timeout"] 0].
Definition processed : outcome Counts * State :=
  MonitoringService.process_results env previous
    (MonitoringService.make_zone_map zones) 1
    (MonitoringService.make_target_map targets) target_results seen_listed.

End Scenario.

(** ** Vocabulary of the statements *)

(** The closed set of statuses of the data model. *)
Definition statuses : list string := ["listed"; "not_listed"; "blocked"; "error"].

(** What the handlers of [_query_dns] make of a resolver reply: the pair
    that is cached and returned. A reply outside the DNS exception
    hierarchy has none. *)
Definition reply_classification (reply : dns_reply) : option (string * list string) :=
  match reply with
  | Answer records => Some ("success", records)
  | NXDOMAIN => Some ("nxdomain", [])
  | NoAnswer => Some ("noanswer", [])
  | Timeout => Some ("timeout", [])
  | DNSException => Some ("error", [])
  | Raises _ => None
  end.

(** No live entry under [key]: a lookup at or after the current time
    misses. *)
Definition cache_miss (key : string) (s : State) : Prop :=
  forall e, TTLCache.find_key key (cache s) = Some e -> ce_expires e <= clock s.

(** The address lies in 127.255.255.0/24. *)
Definition in_blocked_range (ip : Z) : Prop := 0x7FFFFF00 <= ip <= 0x7FFFFFFF.

(** The entries of [results] in [check_target]: one per zone, in order. *)
Definition zone_outcomes (env : Env) (target : string) (zones : list string)
    (include_txt : bool) (s : State) : list (outcome (string * CheckResult)) :=
  match DNSBLChecker.zone_results env target zones include_txt s with
  | (Ok results, _) => results
  | (Raise _, _) => []
  end.

Definition returned {A} (r : outcome A) : Prop :=
  match r with Ok _ => True | Raise _ => False end.

(** The (target, zone) pair of a stored outcome; at most one row per pair. *)
Definition pair_of (row : CheckResultRow) : Z * Z := (cr_target_id row, cr_zone_id row).
Definition unique_pairs (rows : list CheckResultRow) : Prop := NoDup (pair_of <$> rows).

(** One outcome that [run_monitoring] persists: the target row, the zone row
    and the status stored for the pair. *)
Definition observation : Type := Target * Zone * string.

Definition observed (zone_map : gmap string Zone) (t : Target) (st : string)
    (zone_name : string) : list observation :=
  match zone_map !! zone_name with
  | Some z => [(t, z, st)]
  | None => []
  end.

(** The outcomes persisted for a list of per-target results, in the order of
    the processing loops. *)
Definition observations (zone_map : gmap string Zone) (target_map : gmap string Target)
    (target_results : list TargetResult) : list observation :=
  target_results ≫= fun result =>
    match target_map !! target result with
    | None => []
    | Some t =>
        (listed result ≫= fun l => observed zone_map t "listed" (le_zone l))
        ++ (blocked result ≫= fun b => observed zone_map t "blocked" (be_zone b))
        ++ (errors result ≫= fun e => observed zone_map t "error" (ee_zone e))
    end.

(** The condition for an alert: the status stored is [listed] or [blocked] and is
    not the status of the pair in the pre-run snapshot (no prior record
    counts as different). *)
Definition status_changed (previous_statuses : gmap (Z * Z) string) (o : observation)
  : Prop :=
  (o.2 = "listed" \/ o.2 = "blocked")
  /\ previous_statuses !! (target_id o.1.1, zone_id o.1.2) <> Some o.2.

#[export] Instance status_changed_dec prev o : Decision (status_changed prev o).
Proof. unfold status_changed. apply _. Defined.

(** The alert row for an observation. *)
Definition alert_for (previous_statuses : gmap (Z * Z) string) (time : Z)
    (o : observation) : Alert :=
  let '(t, z, st) := o in
  mkAlert (if String.eqb st "listed" then "newly_listed" else "blocked")
    (Some (target_id t)) (zone_zone z)
    (previous_statuses !! (target_id t, zone_id z)) st
    (if String.eqb st "listed"
     then "Target " +:+ target_target t +:+ " is now listed on " +:+ zone_zone z
     else "Target " +:+ target_target t +:+ " is blocked on " +:+ zone_zone z
          +:+ " (limits reached)")
    false None None time.

Definition expected_alerts (previous_statuses : gmap (Z * Z) string) (time : Z)
    (obs : list observation) : list Alert :=
  alert_for previous_statuses time <$> filter (status_changed previous_statuses) obs.

(** A computation that persists the observations [obs]: it does not move the
    clock and appends to the alert table the alerts due for [obs], all of
    them when it returns and the first few when it raises. *)
Definition emits (previous_statuses : gmap (Z * Z) string) {A} (m : M A)
    (obs : list observation) : Prop :=
  forall s r s',
    m s = (r, s') ->
    clock s' = clock s
    /\ exists new,
         db_alerts s' = db_alerts s ++ new
         /\ match r with
            | Ok _ => new = expected_alerts previous_statuses (clock s) obs
            | Raise _ => new `prefix_of` expected_alerts previous_statuses (clock s) obs
            end.

(** A computation that neither logs an event nor touches the running flag. *)
Definition quiet {A} (m : M A) : Prop :=
  forall s r s', m s = (r, s') -> trace s' = trace s /\ _is_running s' = _is_running s.

(** A quiet computation whose results all satisfy [P]. *)
Definition quiet_with {A} (P : A -> Prop) (m : M A) : Prop :=
  forall s r s',
    m s = (r, s') ->
    trace s' = trace s /\ _is_running s' = _is_running s /\ forall a, r = Ok a -> P a.

(** A computation that keeps the outcome table at one row per pair. *)
Definition keeps_unique {A} (m : M A) : Prop :=
  forall s r s',
    m s = (r, s') ->
    unique_pairs (db_check_results s) -> unique_pairs (db_check_results s').

(** [acc] holds exactly the stored statuses of the pairs whose target
    satisfies [P] and whose zone is in scope. *)
Definition agrees (rows : list CheckResultRow) (zones : list Zone) (P : Z -> Prop)
    (acc : gmap (Z * Z) string) : Prop :=
  forall k st,
    acc !! k = Some st
    <-> P k.1 /\ k.2 ∈ zone_id <$> zones
        /\ exists row, row ∈ rows /\ pair_of row = k /\ cr_status row = st.

(** *** Vocabulary for the remaining operations *)

(** The characters of a text. *)
Definition chars (text : string) : list ascii := String.list_ascii_of_string text.

(** An octet, and the dotted-quad text of four of them. *)
Definition octet (n : Z) : Prop := 0 <= n <= 255.
Definition dotted_quad (a b c d : Z) : string :=
  pretty a +:+ "." +:+ pretty b +:+ "." +:+ pretty c +:+ "." +:+ pretty d.

(** The address lies in 127.0.0.0/24. *)
Definition in_listed_range (ip : Z) : Prop := 0x7F000000 <= ip <= 0x7F0000FF.


(** Further scenarios. *)
Module Scenario2.

(** The configuration of [Scenario.env] with the limiter's limit at zero. *)
Definition env_limit0 : Env :=
  mkEnv 0 (3600 * second) 10000 (spamhaus_zones Scenario.env) 50 ""
    Scenario.resolver Scenario.no_fault (fun _ => None).

End Scenario2.

(** *** Remaining operations of the checker and the scheduler job *)

(** [DNSBLChecker.clear_cache]: [self._cache.clear()] *)
Definition clear_cache : M unit := modify (set_cache []).

(** [DNSBLChecker.get_cache_stats]: [len(self._cache)] counts the entries
    that have not expired; the result is (size, max_size, ttl), the ttl in
    the time unit of the clock. *)
Definition get_cache_stats (env : Env) : M (Z * Z * Z) :=
  gets (fun s => (Z.of_nat (length (TTLCache.expire (clock s) (cache s))),
                  cache_maxsize env, cache_ttl env)).

(** The text holds no colon. *)
Definition colon_free (text : string) : Prop := ":"%char ∉ chars text.

(** [scheduled_monitoring] of [app/main.py]: the job run by the scheduler.
    Whatever the run raises is logged and dropped; the log lines are not
    modelled. *)
Definition scheduled_monitoring (env : Env) : M unit :=
  try_except
    (MonitoringService.run_monitoring env "scheduler" None None;; mret tt)
    (fun _ => mret tt).

(** *** Frames *)

(** The persisted side of the state: the statement counter and the tables. *)
Definition store (s : State)
  : nat * list Target * list Zone * list CheckResultRow * gmap Z MonitorRun * list Alert :=
  (db_ops s, db_targets s, db_zones s, db_check_results s, db_runs s, db_alerts s).

(** Every run of the computation takes a state to one related to it by [R]. *)
Definition within (R : State -> State -> Prop) {A} (m : M A) : Prop :=
  forall s r s', m s = (r, s') -> R s s'.

(** What the checker may do to the state: let time pass and ask the
    resolver. The store, the running flag and the trace stay as they are. *)
Definition checker_step (s s' : State) : Prop :=
  clock s <= clock s' /\ dns_log s `prefix_of` dns_log s'
  /\ store s' = store s /\ _is_running s' = _is_running s /\ trace s' = trace s.

(** How many elements of the list satisfy the test. *)
Definition count_where {A} (p : A -> bool) (l : list A) : Z :=
  Z.of_nat (length (List.filter p l)).


(** *** The persist step *)

(** The counters [c] advanced over the observations [obs]. *)
Definition tally (c : Counts) (obs : list observation) : Counts :=
  mkCounts (total_checks c + Z.of_nat (length obs))
    (listed_count c + count_where (fun o => String.eqb o.2 "listed") obs)
    (blocked_count c + count_where (fun o => String.eqb o.2 "blocked") obs)
    (error_count c + count_where (fun o => String.eqb o.2 "error") obs).

(** A computation that, when it returns, returns [c] advanced over [obs]. *)
Definition counts_from (c : Counts) (obs : list observation) (m : M Counts) : Prop :=
  forall s c' s', m s = (Ok c', s') -> c' = tally c obs.

(** The (target, zone) pair of an observation. *)
Definition observed_pair (o : observation) : Z * Z := (target_id o.1.1, zone_id o.1.2).

(** The row [row] was written for the observation [o] by run [run] at
    [time]. *)
Definition written_for (run time : Z) (row : CheckResultRow) (o : observation) : Prop :=
  pair_of row = observed_pair o /\ cr_status row = o.2 /\ cr_run_id row = run
  /\ cr_last_checked row = time /\ cr_last_seen row = time.

(** A computation that persists [obs] for [run]: it does not move the
    clock; every row of the outcome table afterwards is a row from before or
    was written for one of [obs]; and the rows of the pairs not among [obs]
    stay. *)
Definition persists (run : Z) {A} (m : M A) (obs : list observation) : Prop :=
  forall s r s',
    m s = (r, s') ->
    clock s' = clock s
    /\ (forall row,
          row ∈ db_check_results s' ->
          row ∈ db_check_results s
          \/ exists o, o ∈ obs /\ written_for run (clock s) row o)
    /\ (forall row,
          row ∈ db_check_results s ->
          pair_of row ∉ observed_pair <$> obs ->
          row ∈ db_check_results s').

(** * Properties *)

Import DNSBLChecker MonitoringService.

Ltac munfold :=
  unfold mbind, M_bind, bind, mret, M_ret, ret, gets, modify, raise, now, sleep, emit in *.

(** ** The rate limiter *)

Section Limiter.
Context (env : Env) (zone : string).

(** What [acquire] leaves untouched, and that it only moves the clock
    forward. *)
Lemma acquire_frame s r s' :
  RateLimiter.acquire env zone s = (r, s') ->
  cache s' = cache s /\ dns_log s' = dns_log s /\ trace s' = trace s
  /\ _is_running s' = _is_running s /\ db_ops s' = db_ops s
  /\ db_check_results s' = db_check_results s /\ db_alerts s' = db_alerts s
  /\ db_runs s' = db_runs s /\ db_targets s' = db_targets s
  /\ db_zones s' = db_zones s /\ clock s <= clock s'.
Proof.
  unfold RateLimiter.acquire. munfold. cbn.
  destruct (max_requests env <=? _).
  - destruct (_ !!! zone) as [|oldest rest]; cbn.
    + intros [= <- <-]. cbn. repeat split; lia.
    + destruct (0 <? _) eqn:Hs; cbn; intros [= <- <-]; cbn; repeat split; lia.
  - cbn. intros [= <- <-]. cbn. repeat split; lia.
Qed.

(** With a limit of at least one, [acquire] grants: it never rejects. *)
Lemma acquire_grants s :
  1 <= max_requests env -> exists s', RateLimiter.acquire env zone s = (Ok tt, s').
Proof.
  intros Hmax. unfold RateLimiter.acquire. munfold. cbn.
  rewrite lookup_total_insert_eq.
  destruct (max_requests env <=? _) eqn:Hfull; cbn; [|eauto].
  destruct (RateLimiter.recent _ _) as [|oldest rest]; cbn.
  - apply Z.leb_le in Hfull. cbn in Hfull. lia.
  - destruct (0 <? _); cbn; eauto.
Qed.
End Limiter.

(** C2, on the code: with a limit of one query per second, three callers
    that ask at 0 s, 0.5 s and 0.5 s are granted at 0 s, 1.0 s and 1.5 s, so
    the one-second window ending at 1.5 s holds two grants. The second caller
    is recorded with the time it asked (0.5 s), not the time it was granted
    (1.0 s), and the third is measured against that stale stamp. *)
Theorem acquire_overshoots_window :
  max_requests Scenario.env_limit1 = 1
  /\ (RateLimiter.grants Scenario.env_limit1 "z" [0; 500000; 500000] Scenario.initial).1
     = [Ok 0; Ok 1000000; Ok 1500000]
  /\ RateLimiter.grants_in_window 1500000
       (RateLimiter.grants Scenario.env_limit1 "z" [0; 500000; 500000] Scenario.initial).1
     = 2%nat.
Proof. vm_compute. repeat split; reflexivity. Qed.

(** ** The zone checker *)

Lemma in_pair_true x a b : in_pair x a b = true <-> x = a \/ x = b.
Proof.
  unfold in_pair. rewrite orb_true_iff, !String.eqb_eq. tauto.
Qed.

(** [check_zone] answers with one of the four statuses, for the zone asked. *)
Lemma check_zone_status env target zone include_txt s res s' :
  check_zone env target zone include_txt s = (Ok res, s') ->
  status res ∈ statuses /\ cr_zone res = zone.
Proof.
  unfold check_zone, statuses. munfold.
  destruct (_query_dns env target zone "A" s) as [[[a_status recs]|e] s1]; [|discriminate].
  destruct (in_pair a_status "nxdomain" "noanswer").
  { intros [= <- <-]. cbn. set_solver. }
  destruct (in_pair a_status "timeout" "error").
  { intros [= <- <-]. cbn. set_solver. }
  destruct recs as [|r recs].
  { intros [= <- <-]. cbn. set_solver. }
  destruct (_ && _).
  { intros [= <- <-]. cbn. set_solver. }
  destruct include_txt.
  - destruct (_query_dns env target zone "TXT" s1) as [[[t_status txt]|e] s2]; [|discriminate].
    intros [= <- <-]. cbn. set_solver.
  - intros [= <- <-]. cbn. set_solver.
Qed.

(** ** The result cache *)

Section Cache.
Context (env : Env) (key : string).

Lemma find_key_Some c e : TTLCache.find_key key c = Some e -> ce_key e = key.
Proof.
  unfold TTLCache.find_key. intros H. apply List.find_some in H as [_ H].
  by apply String.eqb_eq.
Qed.

Lemma find_key_remove_key c : TTLCache.find_key key (TTLCache.remove_key key c) = None.
Proof.
  unfold TTLCache.find_key, TTLCache.remove_key.
  induction c as [|e c IH]; cbn; [done|].
  destruct (String.eqb (ce_key e) key) eqn:He; cbn; [done|]. by rewrite He.
Qed.

Lemma find_key_snoc c e :
  TTLCache.find_key key c = None -> ce_key e = key ->
  TTLCache.find_key key (c ++ [e]) = Some e.
Proof.
  unfold TTLCache.find_key. intros Hnone Hkey.
  induction c as [|e' c IH]; cbn in *.
  - apply String.eqb_eq in Hkey. by rewrite Hkey.
  - destruct (String.eqb (ce_key e') key); [discriminate|]. by apply IH.
Qed.

(** A lookup with no live entry is a miss and changes nothing. *)
Lemma get_miss s :
  (forall e, TTLCache.find_key key (cache s) = Some e -> ce_expires e <= clock s) ->
  TTLCache.get key s = (Ok None, s).
Proof.
  intros Hmiss. unfold TTLCache.get.
  destruct (TTLCache.find_key key (cache s)) as [e|] eqn:He; [|done].
  specialize (Hmiss e eq_refl). case_bool_decide; [lia|done].
Qed.

(** A lookup of a live entry returns its value and touches the cache only. *)
Lemma get_hit s e :
  TTLCache.find_key key (cache s) = Some e -> clock s < ce_expires e ->
  TTLCache.get key s
  = (Ok (Some (ce_value e)), set_cache (TTLCache.remove_key key (cache s) ++ [e]) s).
Proof.
  intros He Hlive. unfold TTLCache.get. rewrite He. by case_bool_decide.
Qed.

(** A store into a cache of positive capacity succeeds and leaves the entry
    in the cache, expiring one TTL later. *)
Lemma set_stores value s :
  1 <= cache_maxsize env ->
  exists c,
    TTLCache.set env key value s = (Ok tt, set_cache c s)
    /\ TTLCache.find_key key c = Some (mkEntry key value (clock s + cache_ttl env)).
Proof.
  intros Hsize. unfold TTLCache.set.
  destruct (cache_maxsize env <? 1) eqn:Hlt; [apply Z.ltb_lt in Hlt; lia|].
  eexists. split; [reflexivity|].
  apply find_key_snoc; [apply find_key_remove_key|done].
Qed.
End Cache.

(** ** Lookups *)

Section Lookup.
Context (env : Env) (target zone rrtype : string).

(** A lookup that misses the cache asks the resolver once; a reply inside
    the DNS taxonomy is classified, stored under the key of the triple and
    returned. *)
Lemma _query_dns_fresh s :
  1 <= max_requests env -> 1 <= cache_maxsize env ->
  cache_miss (_make_cache_key target zone rrtype) s ->
  exists s1,
    RateLimiter.acquire env zone s = (Ok tt, s1)
    /\ forall reply latency r,
        resolve env (dns_log s) (_build_dnsbl_query target zone) rrtype = (reply, latency) ->
        reply_classification reply = Some r ->
        exists c,
          let s2 := set_cache c
                      (set_clock (clock s1 + Z.of_nat latency)
                         (set_dns_log
                            (dns_log s ++ [(_build_dnsbl_query target zone, rrtype)]) s1)) in
          _query_dns env target zone rrtype s = (Ok r, s2)
          /\ TTLCache.find_key (_make_cache_key target zone rrtype) c
             = Some (mkEntry (_make_cache_key target zone rrtype) r
                       (clock s2 + cache_ttl env)).
Proof.
  intros Hmax Hsize Hmiss.
  destruct (acquire_grants env zone s Hmax) as [s1 Hacq].
  destruct (acquire_frame _ _ _ _ _ Hacq) as (Hc & Hlog & _ & _ & _ & _ & _ & _ & _ & _ & Hclk).
  exists s1. split; [done|]. intros reply latency r Hreply Hclass.
  assert (Hget : _get_cached target zone rrtype s1 = (Ok None, s1)).
  { apply get_miss. intros e He. rewrite Hc in He. specialize (Hmiss e He). lia. }
  set (s1' := set_clock (clock s1 + Z.of_nat latency)
                (set_dns_log (dns_log s ++ [(_build_dnsbl_query target zone, rrtype)]) s1)).
  destruct (set_stores env (_make_cache_key target zone rrtype) r s1' Hsize)
    as (c & Hset & Hfind).
  exists c. cbn. split; [|exact Hfind].
  unfold _query_dns. munfold. rewrite Hacq, Hget.
  unfold resolver_resolve. rewrite Hlog, Hreply. fold s1'.
  unfold _set_cache.
  destruct reply; cbn in Hclass; try discriminate;
    injection Hclass as <-; by rewrite Hset.
Qed.

(** A lookup that finds a live entry returns it without asking the
    resolver. *)
Lemma _query_dns_replay s s1 e :
  RateLimiter.acquire env zone s = (Ok tt, s1) ->
  TTLCache.find_key (_make_cache_key target zone rrtype) (cache s) = Some e ->
  clock s1 < ce_expires e ->
  exists s2,
    _query_dns env target zone rrtype s = (Ok (ce_value e), s2)
    /\ dns_log s2 = dns_log s.
Proof.
  intros Hacq He Hlive.
  destruct (acquire_frame _ _ _ _ _ Hacq) as (Hc & Hlog & _).
  unfold _query_dns. munfold. rewrite Hacq.
  unfold _get_cached. rewrite (get_hit _ s1 e); [|by rewrite Hc|done].
  eexists. split; [by destruct (ce_value e)|]. done.
Qed.
End Lookup.

(** C6: a lookup that misses the cache and gets any reply of the DNS
    taxonomy (records, no such name, no matching record, timeout, other DNS
    error) returns the classification of that reply after storing it under
    the key of (target, zone, record kind); the same lookup repeated [d]
    later, read before the entry expires, returns the same classification
    and issues no resolver call. *)
Theorem lookup_cached_then_replayed env target zone rrtype s reply latency :
  1 <= max_requests env -> 1 <= cache_maxsize env ->
  cache_miss (_make_cache_key target zone rrtype) s ->
  resolve env (dns_log s) (_build_dnsbl_query target zone) rrtype = (reply, latency) ->
  (forall e, reply <> Raises e) ->
  exists r s2,
    reply_classification reply = Some r
    /\ _query_dns env target zone rrtype s = (Ok r, s2)
    /\ dns_log s2 = dns_log s ++ [(_build_dnsbl_query target zone, rrtype)]
    /\ TTLCache.find_key (_make_cache_key target zone rrtype) (cache s2)
       = Some (mkEntry (_make_cache_key target zone rrtype) r (clock s2 + cache_ttl env))
    /\ forall d, 0 <= d ->
         let s3 := set_clock (clock s2 + d) s2 in
         clock (RateLimiter.acquire env zone s3).2 < clock s2 + cache_ttl env ->
         exists s4,
           _query_dns env target zone rrtype s3 = (Ok r, s4)
           /\ dns_log s4 = dns_log s2.
Proof.
  intros Hmax Hsize Hmiss Hreply Hdns.
  destruct (_query_dns_fresh env target zone rrtype s Hmax Hsize Hmiss) as (s1 & Hacq & Hrun).
  destruct (reply_classification reply) as [r|] eqn:Hclass;
    [|destruct reply; try discriminate; by destruct (Hdns e)].
  destruct (Hrun reply latency r Hreply Hclass) as (c & Hq & Hfind). cbn in Hq, Hfind.
  eexists r, _. split; [done|]. split; [exact Hq|]. cbn.
  split; [done|]. split; [exact Hfind|].
  intros d Hd Hlive.
  match goal with |- context [_query_dns _ _ _ _ ?st] => set (s3 := st) in * end.
  destruct (acquire_grants env zone s3 Hmax) as [s4 Hacq3].
  rewrite Hacq3 in Hlive. cbn in Hlive.
  destruct (_query_dns_replay env target zone rrtype s3 s4 _ Hacq3 Hfind Hlive)
    as (s5 & Hq3 & Hlog3).
  exists s5. split; [exact Hq3|]. rewrite Hlog3. done.
Qed.

Lemma lookup_cached_then_replayed_witness :
  exists r s2,
    reply_classification (Answer ["127.0.0.2"]) = Some r
    /\ _query_dns Scenario.env "1.2.3.4" "z" "A" Scenario.initial = (Ok r, s2)
    /\ dns_log s2 = dns_log Scenario.initial ++ [(_build_dnsbl_query "1.2.3.4" "z", "A")]
    /\ TTLCache.find_key (_make_cache_key "1.2.3.4" "z" "A") (cache s2)
       = Some (mkEntry (_make_cache_key "1.2.3.4" "z" "A") r
                 (clock s2 + cache_ttl Scenario.env))
    /\ forall d, 0 <= d ->
         let s3 := set_clock (clock s2 + d) s2 in
         clock (RateLimiter.acquire Scenario.env "z" s3).2 < clock s2 + cache_ttl Scenario.env ->
         exists s4,
           _query_dns Scenario.env "1.2.3.4" "z" "A" s3 = (Ok r, s4)
           /\ dns_log s4 = dns_log s2.
Proof.
  apply (lookup_cached_then_replayed Scenario.env "1.2.3.4" "z" "A" Scenario.initial
           (Answer ["127.0.0.2"]) 10%nat).
  - vm_compute. discriminate.
  - vm_compute. discriminate.
  - intros e He. vm_compute in He. discriminate.
  - vm_compute. reflexivity.
  - intros e. discriminate.
Defined.

(** C7: [check_zone] turns the lookup outcome into a result as follows: no
    such name and no matching record give [not_listed] with no addresses and
    no reason; timeout and DNS error give [error] with that kind as the
    reason; success with no record gives [not_listed]; and every result has
    one of the four statuses. *)
Theorem check_zone_classification env target zone include_txt s :
  (forall a_status recs s1,
      _query_dns env target zone "A" s = (Ok (a_status, recs), s1) ->
      a_status = "nxdomain" \/ a_status = "noanswer" ->
      check_zone env target zone include_txt s
      = (Ok (mkCheckResult zone "not_listed" [] [] None), s1))
  /\ (forall a_status recs s1,
      _query_dns env target zone "A" s = (Ok (a_status, recs), s1) ->
      a_status = "timeout" \/ a_status = "error" ->
      check_zone env target zone include_txt s
      = (Ok (mkCheckResult zone "error" [] [] (Some a_status)), s1))
  /\ (forall s1,
      _query_dns env target zone "A" s = (Ok ("success", []), s1) ->
      check_zone env target zone include_txt s
      = (Ok (mkCheckResult zone "not_listed" [] [] None), s1))
  /\ (forall res s',
      check_zone env target zone include_txt s = (Ok res, s') ->
      status res ∈ statuses).
Proof.
  repeat split.
  - intros a_status recs s1 Hq Hst. unfold check_zone. munfold. rewrite Hq.
    apply in_pair_true in Hst. by rewrite Hst.
  - intros a_status recs s1 Hq Hst. unfold check_zone. munfold. rewrite Hq.
    destruct Hst as [-> | ->]; done.
  - intros s1 Hq. unfold check_zone. munfold. by rewrite Hq.
  - intros res s' H. by apply check_zone_status in H as [H _].
Qed.

Lemma check_zone_classification_witness :
  check_zone Scenario.env "9.9.9.9" "z" false Scenario.initial
  = (Ok (mkCheckResult "z" "error" [] [] (Some "timeout")),
     (_query_dns Scenario.env "9.9.9.9" "z" "A" Scenario.initial).2).
Proof.
  apply (proj1 (proj2 (check_zone_classification Scenario.env "9.9.9.9" "z" false
                         Scenario.initial)) "timeout" []).
  - vm_compute. reflexivity.
  - left. reflexivity.
Defined.

(** Every address of the blocked /24 passes the netmask test of
    [_is_spamhaus_blocked]. *)
Lemma blocked_range_in_network ip :
  in_blocked_range ip -> ipaddress.in_network ip 0x7FFFFF00 0xFFFFFF00 = true.
Proof.
  unfold in_blocked_range, ipaddress.in_network. intros Hip.
  assert (Hall : forallb (fun d => Z.land (0x7FFFFF00 + d) 0xFFFFFF00 =? 0x7FFFFF00)
                   (seqZ 0 256) = true) by (vm_compute; reflexivity).
  rewrite forallb_forall in Hall.
  specialize (Hall (ip - 0x7FFFFF00)).
  replace (0x7FFFFF00 + (ip - 0x7FFFFF00)) with ip in Hall by lia.
  apply Hall. apply list_elem_of_In, elem_of_seqZ. lia.
Qed.

(** C4, as the code has it: for a special-range zone whose lookup succeeds
    with a record in 127.255.255.0/24, [check_zone] answers [blocked],
    carries the returned addresses, and gives the reason ["Blocked/limits"]
    (capital B). *)
Theorem check_zone_blocked env target zone include_txt s records s1 a ip :
  zone ∈ spamhaus_zones env ->
  _query_dns env target zone "A" s = (Ok ("success", records), s1) ->
  a ∈ records -> ipaddress.IPv4Address a = Some ip -> in_blocked_range ip ->
  check_zone env target zone include_txt s
  = (Ok (mkCheckResult zone "blocked" records [] (Some "Blocked/limits")), s1).
Proof.
  intros Hzone Hq Ha Hparse Hrange. unfold check_zone. munfold. rewrite Hq. cbn.
  destruct records as [|r records]; [by apply elem_of_nil in Ha|].
  rewrite bool_decide_eq_true_2 by done.
  assert (Hex : existsb _is_spamhaus_blocked (r :: records) = true).
  { apply existsb_exists. exists a. split; [by apply list_elem_of_In|].
    unfold _is_spamhaus_blocked. rewrite Hparse. by apply blocked_range_in_network. }
  by rewrite Hex.
Qed.

Lemma check_zone_blocked_witness :
  check_zone Scenario.env "5.6.7.8" "zen.spamhaus.org" false Scenario.initial
  = (Ok (mkCheckResult "zen.spamhaus.org" "blocked" ["127.255.255.10"] []
           (Some "Blocked/limits")),
     (_query_dns Scenario.env "5.6.7.8" "zen.spamhaus.org" "A" Scenario.initial).2).
Proof.
  apply (check_zone_blocked Scenario.env "5.6.7.8" "zen.spamhaus.org" false
           Scenario.initial ["127.255.255.10"] _ "127.255.255.10" 0x7FFFFF0A).
  - apply (bool_decide_unpack _). vm_compute. exact I.
  - vm_compute. reflexivity.
  - apply list_elem_of_here.
  - vm_compute. reflexivity.
  - unfold in_blocked_range. lia.
Defined.

(** C4, as stated, fails: the quota address 127.255.255.10 returned by a
    special-range zone gives [blocked] with the addresses, but the reason is
    not ["blocked/limits"]. *)
Lemma check_zone_blocked_reason_counterexample :
  "zen.spamhaus.org" ∈ spamhaus_zones Scenario.env
  /\ (_query_dns Scenario.env "5.6.7.8" "zen.spamhaus.org" "A" Scenario.initial).1
     = Ok ("success", ["127.255.255.10"])
  /\ ipaddress.IPv4Address "127.255.255.10" = Some 0x7FFFFF0A
  /\ in_blocked_range 0x7FFFFF0A
  /\ exists res,
       (check_zone Scenario.env "5.6.7.8" "zen.spamhaus.org" false Scenario.initial).1
       = Ok res
       /\ status res = "blocked"
       /\ a_records res = ["127.255.255.10"]
       /\ error_reason res <> Some "blocked/limits".
Proof.
  split; [apply (bool_decide_unpack _); vm_compute; exact I|].
  split; [vm_compute; reflexivity|].
  split; [vm_compute; reflexivity|].
  split; [unfold in_blocked_range; lia|].
  eexists. split; [vm_compute; reflexivity|]. cbn. repeat split. discriminate.
Qed.

(** ** The batch orchestrator *)

(** [gather] itself never raises and answers once per task. *)
Lemma gather_total {A} (tasks : list (M A)) s :
  exists results s', gather tasks s = (Ok results, s') /\ length results = length tasks.
Proof.
  revert s. induction tasks as [|task tasks IH]; intros s; cbn.
  - by eexists _, _.
  - destruct (task s) as [r s1]. munfold.
    destruct (IH s1) as (rs & s2 & -> & Hlen). eexists _, _. split; [done|]. cbn. lia.
Qed.

Lemma zone_results_statuses env target include_txt zones s results s' :
  zone_results env target zones include_txt s = (Ok results, s') ->
  length results = length zones
  /\ Forall (fun r => forall zone res, r = Ok (zone, res) -> status res ∈ statuses) results.
Proof.
  unfold zone_results. revert s results.
  induction zones as [|zone zones IH]; intros s results; cbn.
  - munfold. intros [= <- <-]. by split.
  - destruct (check_single env target include_txt zone s) as [r s1] eqn:Hsingle. munfold.
    destruct (gather _ s1) as [[rs|e] s2] eqn:Hrest; [|discriminate].
    intros [= <- <-]. destruct (IH _ _ Hrest) as [Hlen Hall]. split; [cbn; lia|].
    constructor; [|done]. intros z res ->.
    unfold check_single in Hsingle. munfold.
    destruct (check_zone env target zone include_txt s) as [[res'|e] s1'] eqn:Hcz;
      [|discriminate].
    injection Hsingle as <- <- <-. by apply check_zone_status in Hcz as [? _].
Qed.

(** An exception object among the results stops the aggregation loop with
    [TypeError]; nothing is aggregated. *)
Lemma aggregate_unpack_failure results l b e n :
  ~ Forall returned results ->
  exists msg, aggregate results l b e n = Raise (TypeError msg).
Proof.
  revert l b e n. induction results as [|r results IH]; intros l b e n Hsome.
  - destruct Hsome. constructor.
  - destruct r as [[zone res]|exc]; cbn; [|eauto].
    assert (~ Forall returned results) by (intros H; apply Hsome; by constructor).
    repeat case_match; eauto.
Qed.

(** When every entry is a result with one of the four statuses, the loop
    counts each entry in exactly one bucket. *)
Lemma aggregate_counts results l b e n :
  Forall returned results ->
  Forall (fun r => forall zone res, r = Ok (zone, res) -> status res ∈ statuses) results ->
  exists l' b' e' n',
    aggregate results l b e n = Ok (l', b', e', n')
    /\ Z.of_nat (length l') + Z.of_nat (length b') + Z.of_nat (length e') + n'
       = Z.of_nat (length l) + Z.of_nat (length b) + Z.of_nat (length e) + n
         + Z.of_nat (length results).
Proof.
  revert l b e n. induction results as [|r results IH]; intros l b e n Hret Hst.
  - cbn. eexists _, _, _, _. split; [done|]. lia.
  - inversion Hret as [|? ? Hr Hret']; subst. inversion Hst as [|? ? Hs Hst']; subst.
    destruct r as [[zone res]|exc]; [|by destruct Hr]. cbn.
    specialize (Hs zone res eq_refl). unfold statuses in Hs.
    repeat (apply elem_of_cons in Hs as [Hs|Hs]); [..|by apply elem_of_nil in Hs];
      rewrite Hs; cbn;
      match goal with |- context [aggregate results ?l1 ?b1 ?e1 ?n1] =>
        destruct (IH l1 b1 e1 n1 Hret' Hst') as (l' & b' & e' & n' & -> & Hsum)
      end;
      eexists _, _, _, _; (split; [done|]);
      rewrite ?length_app in Hsum; cbn in *; lia.
Qed.

(** C3, on the code: zone [bad] raises while [1.2.3.4] is checked against
    [z], [bad] and [q]. The other two checks complete, as [gather] promises,
    but the aggregation loop cannot unpack the exception object: [check_target]
    raises [TypeError] instead of returning a result with an error entry for
    [bad]. *)
Theorem check_target_aborts_on_zone_failure :
  zone_outcomes Scenario.env "1.2.3.4" ["z"; "bad"; "q"] false Scenario.initial
  = [Ok ("z", mkCheckResult "z" "listed" ["127.0.0.2"] [] None);
     Raise (OtherError "network down");
     Ok ("q", mkCheckResult "q" "not_listed" [] [] None)]
  /\ (check_target Scenario.env "1.2.3.4" ["z"; "bad"; "q"] false 50 Scenario.initial).1
     = Raise (TypeError "cannot unpack non-iterable Exception object").
Proof. split; vm_compute; reflexivity. Qed.

(** C10: when no zone check raised, [check_target] returns, and the sizes
    of the three buckets and the not-listed counter add up to the number of
    zones asked. *)
Theorem check_target_counts_every_zone env target zones include_txt concurrency s :
  Forall returned (zone_outcomes env target zones include_txt s) ->
  exists tr s',
    check_target env target zones include_txt concurrency s = (Ok tr, s')
    /\ Z.of_nat (length (listed tr)) + Z.of_nat (length (blocked tr))
       + Z.of_nat (length (errors tr)) + not_listed_zones_count tr
       = Z.of_nat (length zones).
Proof.
  unfold zone_outcomes, check_target. intros Hret.
  destruct (gather_total (check_single env target include_txt <$> zones) s)
    as (results & s1 & Hg & _).
  fold (zone_results env target zones include_txt) in Hg.
  rewrite Hg in Hret. munfold. rewrite Hg.
  destruct (zone_results_statuses _ _ _ _ _ _ _ Hg) as [Hlen Hst].
  destruct (aggregate_counts results [] [] [] 0 Hret Hst) as (l & b & e & n & -> & Hsum).
  eexists _, _. split; [done|]. cbn in *. lia.
Qed.

Lemma check_target_counts_every_zone_witness :
  exists tr s',
    check_target Scenario.env "1.2.3.4" ["z"; "zen.spamhaus.org"; "q"] true 50
      Scenario.initial = (Ok tr, s')
    /\ Z.of_nat (length (listed tr)) + Z.of_nat (length (blocked tr))
       + Z.of_nat (length (errors tr)) + not_listed_zones_count tr
       = Z.of_nat (length ["z"; "zen.spamhaus.org"; "q"]).
Proof.
  apply (check_target_counts_every_zone Scenario.env "1.2.3.4"
           ["z"; "zen.spamhaus.org"; "q"] true 50 Scenario.initial).
  vm_compute. repeat constructor.
Defined.

(** ** The monitoring runner *)

(** C9: while a run is in progress, [run_monitoring] raises the
    run-in-progress error at once and leaves the whole state as it was: no
    run row is created and nothing of the running run changes. *)
Theorem run_monitoring_rejected_while_running env triggered_by target_ids zone_ids s :
  _is_running s = true ->
  run_monitoring env triggered_by target_ids zone_ids s
  = (Raise (RuntimeError "Monitoring is already running"), s).
Proof.
  intros Hbusy. unfold run_monitoring. munfold. by rewrite Hbusy.
Qed.

Lemma run_monitoring_rejected_while_running_witness :
  _is_running Scenario.busy = true
  /\ run_monitoring Scenario.env "api" None None Scenario.busy
     = (Raise (RuntimeError "Monitoring is already running"), Scenario.busy).
Proof.
  split; [reflexivity|].
  apply (run_monitoring_rejected_while_running Scenario.env "api" None None Scenario.busy).
  reflexivity.
Defined.

(** *** Saving an outcome *)

Lemma db_statement_frame env s r s' :
  db_statement env s = (r, s') ->
  s' = set_db_ops (S (db_ops s)) s.
Proof. unfold db_statement. by destruct (db_fault env (db_ops s)); intros [= <- <-]. Qed.

(** The outcome table after [_save_check_result], whatever the store did. *)
Lemma _save_check_result_table env target zone status recs run reason s r s' :
  _save_check_result env target zone status recs run reason s = (r, s') ->
  db_alerts s' = db_alerts s /\ clock s' = clock s /\ trace s' = trace s
  /\ _is_running s' = _is_running s
  /\ match r with
     | Raise _ => db_check_results s' = db_check_results s
     | Ok _ =>
         match list_find (same_pair target zone) (db_check_results s) with
         | Some (i, row) =>
             db_check_results s'
             = <[i := update_existing status recs run reason (clock s) row]>
                 (db_check_results s)
         | None =>
             db_check_results s'
             = db_check_results s
               ++ [mkRow (target_id target) (zone_id zone) status (dumps_or_none recs)
                     reason (clock s) (clock s) run]
         end
     end.
Proof.
  unfold _save_check_result. munfold.
  destruct (db_statement env s) as [[[]|e] s1] eqn:Hdb;
    apply db_statement_frame in Hdb; subst s1; cbn.
  - destruct (list_find _ _) as [[i row]|]; intros [= <- <-]; cbn; repeat split; try done.
    by destruct (negb _).
  - by intros [= <- <-].
Qed.

(** One row per pair is an invariant of [_save_check_result]. *)
Lemma _save_check_result_unique env target zone status recs run reason s r s' :
  _save_check_result env target zone status recs run reason s = (r, s') ->
  unique_pairs (db_check_results s) -> unique_pairs (db_check_results s').
Proof.
  intros Hsave.
  destruct (_save_check_result_table _ _ _ _ _ _ _ _ _ _ Hsave) as (_ & _ & _ & _ & Htab).
  unfold unique_pairs. intros Huniq. destruct r as [[]|e]; [|by rewrite Htab].
  destruct (list_find _ _) as [[i row]|] eqn:Hfind; rewrite Htab.
  - apply list_find_Some in Hfind as (Hi & [Ht Hz] & _).
    rewrite list_fmap_insert. rewrite list_insert_id; [done|].
    rewrite list_lookup_fmap, Hi. done.
  - apply list_find_None in Hfind. rewrite fmap_app. apply NoDup_app.
    split; [done|]. split; [|apply NoDup_singleton].
    intros p Hp Hnew. apply list_elem_of_fmap in Hp as (row & -> & Hrow).
    apply list_elem_of_singleton in Hnew. unfold pair_of in Hnew. cbn in Hnew.
    rewrite Forall_forall in Hfind. apply (Hfind row Hrow).
    injection Hnew as Ht Hz. by split.
Qed.

(** C8: [_save_check_result] upserts. If the pair already has a row, that
    row is rewritten where it stands and the table keeps its length; a table
    with at most one row per pair stays so; and a stored row's [last_seen]
    changes only when the saved status is not [not_listed]. *)
Theorem _save_check_result_upserts env target zone status recs run reason s r s' :
  _save_check_result env target zone status recs run reason s = (r, s') ->
  (forall i row,
      list_find (same_pair target zone) (db_check_results s) = Some (i, row) ->
      r = Ok tt ->
      db_check_results s'
      = <[i := update_existing status recs run reason (clock s) row]> (db_check_results s)
      /\ length (db_check_results s') = length (db_check_results s))
  /\ (unique_pairs (db_check_results s) -> unique_pairs (db_check_results s'))
  /\ (forall i row,
      db_check_results s !! i = Some row ->
      exists row',
        db_check_results s' !! i = Some row'
        /\ pair_of row' = pair_of row
        /\ (cr_last_seen row' <> cr_last_seen row -> status <> "not_listed")).
Proof.
  intros Hsave.
  destruct (_save_check_result_table _ _ _ _ _ _ _ _ _ _ Hsave) as (_ & _ & _ & _ & Htab).
  split; [|split].
  - intros i row Hfind ->. rewrite Hfind in Htab. rewrite Htab.
    split; [done|]. by rewrite length_insert.
  - by eapply _save_check_result_unique.
  - assert (Hsame : forall (rows : list CheckResultRow) i row,
             rows !! i = Some row ->
             exists row', rows !! i = Some row' /\ pair_of row' = pair_of row
               /\ (cr_last_seen row' <> cr_last_seen row -> status <> "not_listed")).
    { intros rows i row Hi. exists row. split; [done|]. split; [done|].
      intros Hseen. by destruct Hseen. }
    intros i row Hi. destruct r as [[]|e]; [|rewrite Htab; by apply Hsame].
    destruct (list_find _ _) as [[j found]|] eqn:Hfind; rewrite Htab.
    + apply list_find_Some in Hfind as (Hj & _ & _).
      destruct (decide (j = i)) as [->|Hne].
      * rewrite list_lookup_insert_eq by (by eapply lookup_lt_Some).
        assert (found = row) as -> by congruence.
        eexists. split; [done|]. split; [done|]. cbn.
        intros Hseen Hst. apply Hseen. rewrite Hst. reflexivity.
      * rewrite list_lookup_insert_ne by done. by apply Hsame.
    + rewrite lookup_app_l by (by eapply lookup_lt_Some). by apply Hsame.
Qed.

Lemma _save_check_result_upserts_witness :
  (forall i row,
      list_find (same_pair (mkTarget 1 "1.2.3.4" true) (mkZone 1 "z" true))
        (db_check_results Scenario.seen_listed) = Some (i, row) ->
      Ok tt = Ok tt ->
      db_check_results
        (set_check_results [mkRow 1 1 "not_listed" None None 7 0 2]
           (set_db_ops 1 Scenario.seen_listed))
      = <[i := update_existing "not_listed" [] 2 None (clock Scenario.seen_listed) row]>
          (db_check_results Scenario.seen_listed)
      /\ length (db_check_results
                   (set_check_results [mkRow 1 1 "not_listed" None None 7 0 2]
                      (set_db_ops 1 Scenario.seen_listed)))
         = length (db_check_results Scenario.seen_listed))
  /\ (unique_pairs (db_check_results Scenario.seen_listed) ->
      unique_pairs (db_check_results
                      (set_check_results [mkRow 1 1 "not_listed" None None 7 0 2]
                         (set_db_ops 1 Scenario.seen_listed))))
  /\ (forall i row,
      db_check_results Scenario.seen_listed !! i = Some row ->
      exists row',
        db_check_results
          (set_check_results [mkRow 1 1 "not_listed" None None 7 0 2]
             (set_db_ops 1 Scenario.seen_listed)) !! i = Some row'
        /\ pair_of row' = pair_of row
        /\ (cr_last_seen row' <> cr_last_seen row -> "not_listed" <> "not_listed")).
Proof.
  apply (_save_check_result_upserts Scenario.env (mkTarget 1 "1.2.3.4" true)
           (mkZone 1 "z" true) "not_listed" [] 2 None Scenario.seen_listed (Ok tt)).
  vm_compute. reflexivity.
Defined.

(** *** Alerts *)

Section Alerts.
Context (env : Env) (prev : gmap (Z * Z) string) (zone_map : gmap string Zone) (run : Z).

Lemma expected_alerts_app time o1 o2 :
  expected_alerts prev time (o1 ++ o2)
  = expected_alerts prev time o1 ++ expected_alerts prev time o2.
Proof. unfold expected_alerts. by rewrite filter_app, fmap_app. Qed.

Lemma emits_ret {A} (a : A) : emits prev (mret a) [].
Proof.
  intros s r s'. munfold. intros [= <- <-]. split; [done|].
  exists []. by rewrite app_nil_r.
Qed.

Lemma emits_bind {A B} (m : M A) (k : A -> M B) o1 o2 :
  emits prev m o1 -> (forall a, emits prev (k a) o2) -> emits prev (m ≫= k) (o1 ++ o2).
Proof.
  intros Hm Hk s r s'. munfold.
  destruct (m s) as [[a|e] s1] eqn:Hms; destruct (Hm _ _ _ Hms) as (Hc1 & new1 & Ha1 & Hn1).
  - intros Hks. destruct (Hk a _ _ _ Hks) as (Hc2 & new2 & Ha2 & Hn2).
    split; [congruence|]. exists (new1 ++ new2).
    rewrite Ha2, Ha1, <- (assoc_L (++)). split; [done|].
    rewrite expected_alerts_app, Hc1 in *. subst new1.
    destruct r; [by subst|]. by apply prefix_app.
  - intros [= <- <-]. split; [done|]. exists new1. split; [done|].
    rewrite expected_alerts_app. by apply prefix_app_r.
Qed.

Lemma emits_save target zone status recs reason :
  emits prev (_save_check_result env target zone status recs run reason) [].
Proof.
  intros s r s' Hsave.
  destruct (_save_check_result_table _ _ _ _ _ _ _ _ _ _ Hsave) as (Ha & Hc & _).
  split; [done|]. exists []. rewrite app_nil_r. split; [done|]. by destruct r.
Qed.

Lemma emits_listed target c entry :
  emits prev (process_listed env prev zone_map run target c entry)
    (observed zone_map target "listed" (le_zone entry)).
Proof.
  unfold process_listed, observed. destruct (zone_map !! le_zone entry) as [zone|];
    [|apply emits_ret].
  apply (emits_bind _ _ [] [_]); [apply emits_save|]. intros _.
  apply (emits_bind _ _ [_] []); [|intros; apply emits_ret].
  intros s r s'. unfold expected_alerts. rewrite filter_cons, filter_nil.
  case_bool_decide as Hchg.
  - unfold _create_alert. munfold. intros [= <- <-]. split; [done|]. cbn.
    eexists. split; [done|].
    rewrite decide_True by (by split; [left|]). done.
  - munfold. intros [= <- <-]. split; [done|]. exists []. rewrite app_nil_r.
    split; [done|]. rewrite decide_False; [done|]. by intros [_ ?].
Qed.

Lemma emits_blocked target c entry :
  emits prev (process_blocked env prev zone_map run target c entry)
    (observed zone_map target "blocked" (be_zone entry)).
Proof.
  unfold process_blocked, observed. destruct (zone_map !! be_zone entry) as [zone|];
    [|apply emits_ret].
  apply (emits_bind _ _ [] [_]); [apply emits_save|]. intros _.
  apply (emits_bind _ _ [_] []); [|intros; apply emits_ret].
  intros s r s'. unfold expected_alerts. rewrite filter_cons, filter_nil.
  case_bool_decide as Hchg.
  - unfold _create_alert. munfold. intros [= <- <-]. split; [done|]. cbn.
    eexists. split; [done|].
    rewrite decide_True by (by split; [right|]). done.
  - munfold. intros [= <- <-]. split; [done|]. exists []. rewrite app_nil_r.
    split; [done|]. rewrite decide_False; [done|]. by intros [_ ?].
Qed.

(** An [error] outcome is stored and never alerts. *)
Lemma emits_error target c entry :
  emits prev (process_error env zone_map run target c entry)
    (observed zone_map target "error" (ee_zone entry)).
Proof.
  unfold process_error, observed. destruct (zone_map !! ee_zone entry) as [zone|];
    [|apply emits_ret].
  intros s r s' H.
  destruct (emits_bind _ _ [] [] (emits_save _ _ _ _ _) (fun _ => emits_ret _) _ _ _ H)
    as (Hc & new & Ha & Hn).
  split; [done|]. exists new. split; [done|].
  unfold expected_alerts in *. rewrite filter_cons, filter_nil.
  rewrite decide_False; [done|]. intros [[?|?] _]; discriminate.
Qed.

Lemma emits_for_counts {A} (body : Counts -> A -> M Counts) (f : A -> list observation) l c :
  (forall c x, emits prev (body c x) (f x)) ->
  emits prev (for_counts l body c) (l ≫= f).
Proof.
  intros Hbody. revert c. induction l as [|x l IH]; intros c; cbn.
  - apply emits_ret.
  - apply emits_bind; [apply Hbody|]. intros c'. apply IH.
Qed.

Lemma emits_process_results target_map target_results :
  emits prev (process_results env prev zone_map run target_map target_results)
    (observations zone_map target_map target_results).
Proof.
  unfold process_results, observations. apply emits_for_counts. intros c result.
  unfold process_result. destruct (target_map !! target result) as [t|]; [|apply emits_ret].
  apply emits_bind; [apply emits_for_counts; intros; apply emits_listed|]. intros c1.
  apply emits_bind; [apply emits_for_counts; intros; apply emits_blocked|]. intros c2.
  apply emits_for_counts; intros; apply emits_error.
Qed.
End Alerts.

(** Two observations with the same alert row agree on the condition for
    an alert. *)
Lemma alert_for_status_changed prev time o o' :
  alert_for prev time o = alert_for prev time o' ->
  status_changed prev o' -> status_changed prev o.
Proof.
  destruct o as [[t z] st], o' as [[t' z'] st']. unfold alert_for, status_changed. cbn.
  intros [= _ Ht Hz Hold <- _] [Hst Hne]. split; [done|]. by rewrite Hold.
Qed.

(** C5: over the processing loops of a run that completes, the alert table
    grows by exactly the alerts of the persisted outcomes whose status is
    [listed] or [blocked] and differs from the pre-run snapshot of the pair
    (absent when there is no prior record): an outcome gets its alert if and
    only if it meets that condition, and no other alert is created; in
    particular an unchanged status and an [error] outcome create none. *)
Theorem alert_iff_status_changed env prev zone_map run target_map target_results s c s' :
  process_results env prev zone_map run target_map target_results s = (Ok c, s') ->
  exists new,
    db_alerts s' = db_alerts s ++ new
    /\ (forall o,
          o ∈ observations zone_map target_map target_results ->
          (alert_for prev (clock s) o ∈ new <-> status_changed prev o))
    /\ (forall a,
          a ∈ new ->
          exists o,
            o ∈ observations zone_map target_map target_results
            /\ status_changed prev o /\ a = alert_for prev (clock s) o)
    /\ (forall a, a ∈ new -> alert_new_status a <> "error"
                              /\ alert_old_status a <> Some (alert_new_status a)).
Proof.
  intros Hrun.
  destruct (emits_process_results env prev zone_map run target_map target_results
              _ _ _ Hrun) as (_ & new & Halerts & ->).
  exists (expected_alerts prev (clock s) (observations zone_map target_map target_results)).
  split; [done|]. unfold expected_alerts.
  assert (Hfrom : forall a,
             a ∈ alert_for prev (clock s)
                 <$> filter (status_changed prev)
                       (observations zone_map target_map target_results) ->
             exists o, o ∈ observations zone_map target_map target_results
                       /\ status_changed prev o /\ a = alert_for prev (clock s) o).
  { intros a Ha. apply list_elem_of_fmap in Ha as (o & -> & Ho).
    apply list_elem_of_filter in Ho as [Hchg Ho]. eauto. }
  split; [|split; [exact Hfrom|]].
  - intros o Ho. split.
    + intros Ha. destruct (Hfrom _ Ha) as (o' & _ & Hchg & Heq).
      by eapply alert_for_status_changed.
    + intros Hchg. apply list_elem_of_fmap. exists o. split; [done|].
      by apply list_elem_of_filter.
  - intros a Ha. destruct (Hfrom _ Ha) as ([[t z] st] & _ & [Hst Hne] & ->). cbn in *.
    split; [|done]. destruct Hst as [-> | ->]; discriminate.
Qed.

(** *** Events of a run *)

Lemma quiet_ret {A} (a : A) : quiet (mret a).
Proof. intros s r s'. munfold. by intros [= <- <-]. Qed.

Lemma quiet_raise {A} e : quiet (@raise A e).
Proof. intros s r s'. munfold. by intros [= <- <-]. Qed.

Lemma quiet_gets {A} (f : State -> A) : quiet (gets f).
Proof. intros s r s'. munfold. by intros [= <- <-]. Qed.

Lemma quiet_modify f :
  (forall s, trace (f s) = trace s /\ _is_running (f s) = _is_running s) ->
  quiet (modify f).
Proof. intros Hf s r s'. munfold. intros [= <- <-]. apply Hf. Qed.

Lemma quiet_bind {A B} (m : M A) (k : A -> M B) :
  quiet m -> (forall a, quiet (k a)) -> quiet (m ≫= k).
Proof.
  intros Hm Hk s r s'. munfold.
  destruct (m s) as [[a|e] s1] eqn:Hms; destruct (Hm _ _ _ Hms) as [Ht Hr].
  - intros Hks. destruct (Hk a _ _ _ Hks). split; congruence.
  - by intros [= <- <-].
Qed.

Lemma quiet_try_except {A} (body : M A) handler :
  quiet body -> (forall e, quiet (handler e)) -> quiet (try_except body handler).
Proof.
  intros Hb Hh s r s'. unfold try_except.
  destruct (body s) as [[a|e] s1] eqn:Hbs; destruct (Hb _ _ _ Hbs) as [Ht Hr].
  - by intros [= <- <-].
  - intros Hhs. destruct (Hh e _ _ _ Hhs). split; congruence.
Qed.

Lemma quiet_gather {A} (tasks : list (M A)) : Forall quiet tasks -> quiet (gather tasks).
Proof.
  induction 1 as [|task tasks Htask _ IH]; cbn; [apply quiet_ret|].
  intros s r s'. destruct (task s) as [r1 s1] eqn:Hts. destruct (Htask _ _ _ Hts).
  intros Hrest.
  assert (Hq : quiet (rs ← gather tasks; mret (r1 :: rs)))
    by (apply quiet_bind; [done|intros; apply quiet_ret]).
  destruct (Hq _ _ _ Hrest). split; congruence.
Qed.

Lemma quiet_mapM {A B} (f : A -> M B) l : (forall x, quiet (f x)) -> quiet (mapM f l).
Proof.
  intros Hf. induction l as [|x l IH]; cbn; [apply quiet_ret|].
  apply quiet_bind; [done|]. intros b. apply quiet_bind; [done|]. intros; apply quiet_ret.
Qed.

Lemma quiet_for_counts {A} (body : Counts -> A -> M Counts) l c :
  (forall c x, quiet (body c x)) -> quiet (for_counts l body c).
Proof.
  intros Hb. revert c. induction l as [|x l IH]; intros c; cbn; [apply quiet_ret|].
  apply quiet_bind; [done|]. intros; apply IH.
Qed.

Lemma quiet_acquire env zone : quiet (RateLimiter.acquire env zone).
Proof. intros s r s' H. by destruct (acquire_frame _ _ _ _ _ H) as (_ & _ & ? & ? & _). Qed.

Lemma quiet_cache_get key : quiet (TTLCache.get key).
Proof.
  intros s r s'. unfold TTLCache.get.
  destruct (TTLCache.find_key key (cache s)); [case_bool_decide|]; by intros [= <- <-].
Qed.

Lemma quiet_cache_set env key value : quiet (TTLCache.set env key value).
Proof.
  intros s r s'. unfold TTLCache.set. by destruct (_ <? _); intros [= <- <-].
Qed.

Lemma quiet_resolver_resolve env q rrtype : quiet (resolver_resolve env q rrtype).
Proof.
  intros s r s'. unfold resolver_resolve. by destruct (resolve _ _ _ _); intros [= <- <-].
Qed.

Lemma quiet_query_dns env target zone rrtype : quiet (_query_dns env target zone rrtype).
Proof.
  unfold _query_dns. apply quiet_bind; [apply quiet_acquire|]. intros _.
  apply quiet_bind; [apply quiet_cache_get|]. intros [c|]; [apply quiet_ret|].
  apply quiet_bind; [apply quiet_resolver_resolve|].
  intros []; try apply quiet_raise;
    (apply quiet_bind; [apply quiet_cache_set|intros; apply quiet_ret]).
Qed.

Lemma quiet_check_zone env target zone include_txt :
  quiet (check_zone env target zone include_txt).
Proof.
  unfold check_zone. apply quiet_bind; [apply quiet_query_dns|]. intros [a_status recs].
  repeat case_match; try apply quiet_ret.
  all: apply quiet_bind; [|intros; apply quiet_ret]; try apply quiet_ret.
  apply quiet_bind; [apply quiet_query_dns|]. intros []. apply quiet_ret.
Qed.

Lemma quiet_check_target env target zones include_txt concurrency :
  quiet (check_target env target zones include_txt concurrency).
Proof.
  unfold check_target, zone_results. apply quiet_bind.
  - apply quiet_gather, Forall_fmap, Forall_forall. intros zone _. unfold check_single.
    apply quiet_bind; [apply quiet_check_zone|intros; apply quiet_ret].
  - intros results. repeat case_match; apply quiet_ret || apply quiet_raise.
Qed.

Lemma quiet_check_multiple env targets zones include_txt concurrency :
  quiet (check_multiple env targets zones include_txt concurrency).
Proof.
  unfold check_multiple. apply quiet_bind.
  - apply quiet_gather, Forall_fmap, Forall_forall. intros t _.
    exact (quiet_check_target env t zones include_txt concurrency).
  - intros results. repeat case_match. apply quiet_ret.
Qed.

Lemma quiet_db_statement env : quiet (db_statement env).
Proof. intros s r s' H. by rewrite (db_statement_frame _ _ _ _ H). Qed.

Lemma quiet_update_run run f : quiet (update_run run f).
Proof. by apply quiet_modify. Qed.

Lemma quiet_snapshot env targets zones acc : quiet (snapshot env targets zones acc).
Proof.
  revert acc. induction targets as [|t targets IH]; intros acc; cbn; [apply quiet_ret|].
  apply quiet_bind; [apply quiet_db_statement|]. intros _.
  apply quiet_bind; [apply quiet_gets|]. intros; apply IH.
Qed.

Lemma quiet_save env target zone status recs run reason :
  quiet (_save_check_result env target zone status recs run reason).
Proof.
  intros s r s' H.
  by destruct (_save_check_result_table _ _ _ _ _ _ _ _ _ _ H) as (_ & _ & ? & ? & _).
Qed.

Lemma quiet_create_alert target alert_type zone old new message :
  quiet (_create_alert target alert_type zone old new message).
Proof.
  unfold _create_alert. apply quiet_bind; [apply quiet_gets|]. intros.
  by apply quiet_modify.
Qed.

Lemma quiet_process_results env prev zone_map run target_map results :
  quiet (process_results env prev zone_map run target_map results).
Proof.
  unfold process_results. apply quiet_for_counts. intros c result.
  unfold process_result. case_match; [|apply quiet_ret].
  apply quiet_bind; [|intros c1; apply quiet_bind]; [| |intros c2];
    apply quiet_for_counts; intros c' entry.
  - unfold process_listed. case_match; [|apply quiet_ret].
    apply quiet_bind; [apply quiet_save|]. intros _.
    apply quiet_bind; [|intros; apply quiet_ret].
    case_bool_decide; [apply quiet_create_alert|apply quiet_ret].
  - unfold process_blocked. case_match; [|apply quiet_ret].
    apply quiet_bind; [apply quiet_save|]. intros _.
    apply quiet_bind; [|intros; apply quiet_ret].
    case_bool_decide; [apply quiet_create_alert|apply quiet_ret].
  - unfold process_error. case_match; [|apply quiet_ret].
    apply quiet_bind; [apply quiet_save|intros; apply quiet_ret].
Qed.

Lemma quiet_with_ret {A} (P : A -> Prop) a : P a -> quiet_with P (mret a).
Proof. intros HP s r s'. munfold. intros [= <- <-]. repeat split. by intros ? [= <-]. Qed.

Lemma quiet_with_raise {A} (P : A -> Prop) e : quiet_with P (raise e).
Proof. intros s r s'. munfold. by intros [= <- <-]. Qed.

Lemma quiet_with_bind {A B} (P : B -> Prop) (m : M A) (k : A -> M B) :
  quiet m -> (forall a, quiet_with P (k a)) -> quiet_with P (m ≫= k).
Proof.
  intros Hm Hk s r s'. munfold.
  destruct (m s) as [[a|e] s1] eqn:Hms; destruct (Hm _ _ _ Hms) as [Ht Hr].
  - intros Hks. destruct (Hk a _ _ _ Hks) as (? & ? & ?). repeat split; [congruence..|done].
  - by intros [= <- <-].
Qed.

(** The [except] handler records the failure and re-raises: it never
    returns. *)
Lemma run_failed_raises env run e : quiet_with (fun _ => False) (run_failed env run e).
Proof.
  unfold run_failed.
  apply quiet_with_bind; [apply quiet_gets|]. intros finished_at.
  apply quiet_with_bind; [apply quiet_gets|]. intros started_at.
  apply quiet_with_bind; [apply quiet_update_run|]. intros _.
  apply quiet_with_bind; [apply quiet_db_statement|]. intros _.
  apply quiet_with_raise.
Qed.

(** [_send_webhooks] logs its invocation and nothing else. *)
Lemma _send_webhooks_trace env run s r s' :
  _send_webhooks env run s = (r, s') ->
  trace s' = trace s ++ [EvWebhookDispatch run] /\ _is_running s' = _is_running s.
Proof.
  unfold _send_webhooks.
  set (rest := if String.eqb (alert_webhook_url env) "" then mret () else _).
  assert (Hrest : quiet rest).
  { subst rest. case_match; [apply quiet_ret|].
    apply quiet_bind; [apply quiet_db_statement|]. intros _.
    apply quiet_bind; [apply quiet_gets|]. intros [|ia alerts]; [apply quiet_ret|].
    apply quiet_bind.
    { apply quiet_mapM. intros a. unfold payload_alert.
      apply quiet_bind; [|intros; apply quiet_ret].
      case_match; [|apply quiet_ret].
      apply quiet_bind; [apply quiet_db_statement|]. intros _.
      apply quiet_bind; [apply quiet_gets|]. intros [t|]; [apply quiet_ret|apply quiet_raise]. }
    intros payload_alerts. apply quiet_bind; [apply quiet_gets|]. intros found.
    apply quiet_try_except.
    - case_match; [apply quiet_raise|].
      apply quiet_bind; [by apply quiet_modify|intros; apply quiet_db_statement].
    - intros e. apply quiet_bind; [by apply quiet_modify|intros; apply quiet_db_statement]. }
  munfold. cbn. intros Hrun. by destruct (Hrest _ _ _ Hrun).
Qed.

(** The checks log an event only on the early return, where they clear the
    flag by hand. *)
Lemma run_checks_trace env run target_ids zone_ids s r s' :
  run_checks env run target_ids zone_ids s = (r, s') ->
  match r with
  | Ok true => trace s' = trace s ++ [EvGuardReleased] /\ _is_running s' = false
  | _ => trace s' = trace s /\ _is_running s' = _is_running s
  end.
Proof.
  unfold run_checks. munfold.
  destruct (query_targets env target_ids s) as [[targets|e] s1] eqn:H1;
    destruct (quiet_bind _ _ (quiet_db_statement env) (fun _ => quiet_gets _) _ _ _ H1)
      as [Ht1 Hr1]; [|by intros [= <- <-]].
  destruct (query_zones env zone_ids s1) as [[zones|e] s2] eqn:H2;
    destruct (quiet_bind _ _ (quiet_db_statement env) (fun _ => quiet_gets _) _ _ _ H2)
      as [Ht2 Hr2]; [|intros [= <- <-]; split; congruence].
  cbn.
  match goal with |- context [db_statement env ?st] => set (s3 := st) end.
  destruct (db_statement env s3) as [[[]|e] s4] eqn:H4;
    apply db_statement_frame in H4; subst s4;
    [|intros [= <- <-]; cbn; split; congruence].
  destruct (negb (nonempty targets) || negb (nonempty zones)).
  - cbn.
    match goal with |- context [db_statement env ?st] => set (s5 := st) end.
    destruct (db_statement env s5) as [[[]|e] s6] eqn:H6;
      apply db_statement_frame in H6; subst s6; intros [= <- <-]; cbn.
    + split; [congruence|done].
    + split; congruence.
  - intros Hmain.
    assert (Hq : quiet_with (fun b => b = false)
      (previous_statuses ← snapshot env targets zones ∅;
       '(summary, target_results) ←
         check_multiple env (target_target <$> targets) (zone_zone <$> zones) false
           (dns_concurrency env);
       counts ← process_results env previous_statuses (make_zone_map zones) run
                  (make_target_map targets) target_results;
       update_run run (set_counts counts);;
       finished_at ← now;
       started_at ← gets (started_at_of run);
       update_run run
         (finish_run "completed" finished_at (duration_seconds started_at finished_at) None);;
       db_statement env;;
       mret false)).
    { apply quiet_with_bind; [apply quiet_snapshot|]. intros prev.
      apply quiet_with_bind; [apply quiet_check_multiple|]. intros [summary results].
      apply quiet_with_bind; [apply quiet_process_results|]. intros counts.
      apply quiet_with_bind; [apply quiet_update_run|]. intros _.
      apply quiet_with_bind; [apply quiet_gets|]. intros finished_at.
      apply quiet_with_bind; [apply quiet_gets|]. intros started_at.
      apply quiet_with_bind; [apply quiet_update_run|]. intros _.
      apply quiet_with_bind; [apply quiet_db_statement|]. intros _.
      by apply quiet_with_ret. }
    destruct (Hq _ _ _ Hmain) as (Ht & Hr & Hres). cbn in Ht, Hr.
    destruct r as [[]|e]; [by specialize (Hres true eq_refl)|split; congruence..].
Qed.

(** C1, as the code has it: once the run row exists, [run_monitoring] ends
    with the running flag cleared; the webhook dispatch is invoked, before
    the flag is cleared, exactly when steps 2 to 6 completed over a scope
    that is not empty. When they raise, and when the scope is empty, the
    flag is cleared without any dispatch. *)
Theorem webhook_dispatch_then_release env triggered_by target_ids zone_ids s run s0 :
  _is_running s = false ->
  run_started env triggered_by s = (Ok run, s0) ->
  exists r s',
    run_monitoring env triggered_by target_ids zone_ids s = (r, s')
    /\ _is_running s' = false
    /\ match (run_checks env run target_ids zone_ids s0).1 with
       | Ok false =>
           trace s' = trace s0 ++ [EvWebhookDispatch run; EvGuardReleased]
       | Ok true =>
           r = Ok run /\ trace s' = trace s0 ++ [EvGuardReleased; EvGuardReleased]
       | Raise _ =>
           ~ returned r /\ trace s' = trace s0 ++ [EvGuardReleased]
       end.
Proof.
  intros Hidle Hstart. unfold run_monitoring. munfold. rewrite Hidle, Hstart.
  unfold try_finally, try_except, run_body. munfold.
  destruct (run_checks env run target_ids zone_ids s0) as [rc s1] eqn:Hchecks.
  apply run_checks_trace in Hchecks. cbn [fst].
  destruct rc as [[]|e].
  - destruct Hchecks as [Ht1 Hr1]. eexists _, _. split; [done|]. cbn.
    split; [done|]. split; [done|]. by rewrite Ht1, <- (assoc_L (++)).
  - destruct Hchecks as [Ht1 Hr1].
    destruct (_send_webhooks env run s1) as [[[]|e] s2] eqn:Hhook;
      apply _send_webhooks_trace in Hhook as [Ht2 Hr2].
    + eexists _, _. split; [done|]. cbn. split; [done|].
      by rewrite Ht2, Ht1, <- (assoc_L (++)).
    + destruct (run_failed env run e s2) as [rf s3] eqn:Hfail.
      apply run_failed_raises in Hfail as (Ht3 & _ & _).
      eexists _, _. split; [done|]. cbn. split; [done|].
      by rewrite Ht3, Ht2, Ht1, <- (assoc_L (++)).
  - destruct Hchecks as [Ht1 Hr1].
    destruct (run_failed env run e s1) as [rf s3] eqn:Hfail.
    apply run_failed_raises in Hfail as (Ht3 & _ & Hnever).
    eexists _, _. split; [done|]. cbn. split; [done|]. split; [|congruence].
    destruct rf as [a|e']; [by destruct (Hnever a)|by intros []].
Qed.

Lemma webhook_dispatch_then_release_witness :
  exists r s',
    run_monitoring Scenario.env "scheduler" None None Scenario.initial = (r, s')
    /\ _is_running s' = false
    /\ match (run_checks Scenario.env 1 None None
                (run_started Scenario.env "scheduler" Scenario.initial).2).1 with
       | Ok false =>
           trace s'
           = trace (run_started Scenario.env "scheduler" Scenario.initial).2
             ++ [EvWebhookDispatch 1; EvGuardReleased]
       | Ok true =>
           r = Ok 1
           /\ trace s'
              = trace (run_started Scenario.env "scheduler" Scenario.initial).2
                ++ [EvGuardReleased; EvGuardReleased]
       | Raise _ =>
           ~ returned r
           /\ trace s'
              = trace (run_started Scenario.env "scheduler" Scenario.initial).2
                ++ [EvGuardReleased]
       end.
Proof.
  apply (webhook_dispatch_then_release Scenario.env "scheduler" None None
           Scenario.initial 1 (run_started Scenario.env "scheduler" Scenario.initial).2).
  - reflexivity.
  - vm_compute. reflexivity.
Defined.

(** C1, as stated, fails: the store rejects the second outcome written in
    step 5. The run is recorded as failed and the exception re-raised; the
    running flag is cleared, but the webhook dispatch was never invoked, and
    the alert created before the failure stays unsent. *)
Lemma webhook_dispatch_skipped_counterexample :
  (run_monitoring (Scenario.env_fault 7) "scheduler" None None Scenario.initial).1
  = Raise (OtherError "database is locked")
  /\ trace (run_monitoring (Scenario.env_fault 7) "scheduler" None None Scenario.initial).2
     = [EvGuardTaken; EvRunCreated 1; EvGuardReleased]
  /\ (EvWebhookDispatch 1
      ∉ trace (run_monitoring (Scenario.env_fault 7) "scheduler" None None
                 Scenario.initial).2)
  /\ _is_running
       (run_monitoring (Scenario.env_fault 7) "scheduler" None None Scenario.initial).2
     = false
  /\ (alert_webhook_sent
      <$> db_alerts
            (run_monitoring (Scenario.env_fault 7) "scheduler" None None
               Scenario.initial).2)
     = [false].
Proof.
  assert (Htrace :
    trace (run_monitoring (Scenario.env_fault 7) "scheduler" None None Scenario.initial).2
    = [EvGuardTaken; EvRunCreated 1; EvGuardReleased]) by (vm_compute; reflexivity).
  split; [vm_compute; reflexivity|]. split; [exact Htrace|].
  split.
  { rewrite Htrace. intros Hin.
    repeat (apply elem_of_cons in Hin as [Hin|Hin]; [discriminate|]).
    by apply elem_of_nil in Hin. }
  split; vm_compute; reflexivity.
Qed.

Lemma alert_iff_status_changed_witness :
  exists new,
    db_alerts Scenario.processed.2 = db_alerts Scenario.seen_listed ++ new
    /\ (forall o,
          o ∈ observations (make_zone_map Scenario.zones)
                (make_target_map Scenario.targets) Scenario.target_results ->
          (alert_for Scenario.previous (clock Scenario.seen_listed) o ∈ new
           <-> status_changed Scenario.previous o))
    /\ (forall a,
          a ∈ new ->
          exists o,
            o ∈ observations (make_zone_map Scenario.zones)
                  (make_target_map Scenario.targets) Scenario.target_results
            /\ status_changed Scenario.previous o
            /\ a = alert_for Scenario.previous (clock Scenario.seen_listed) o)
    /\ (forall a, a ∈ new -> alert_new_status a <> "error"
                              /\ alert_old_status a <> Some (alert_new_status a)).
Proof.
  apply (alert_iff_status_changed Scenario.env Scenario.previous
           (make_zone_map Scenario.zones) 1 (make_target_map Scenario.targets)
           Scenario.target_results Scenario.seen_listed (mkCounts 3 1 1 1)
           Scenario.processed.2).
  vm_compute. reflexivity.
Defined.

(** On the scenario: the listing seen before raises no alert, the new block
    raises one, the error none. *)
Example processed_alerts :
  (alert_target_id <$> db_alerts Scenario.processed.2,
   alert_new_status <$> db_alerts Scenario.processed.2,
   cr_status <$> db_check_results Scenario.processed.2)
  = ([Some 2], ["blocked"], ["listed"; "blocked"; "error"]).
Proof. vm_compute. reflexivity. Qed.

(** ** Further facts about the same code *)

(** What C3's scenario shows holds for every call: as soon as one zone
    check raised, [check_target] raises [TypeError]. *)
Lemma check_target_raises_when_zone_raised env target zones include_txt concurrency s :
  ~ Forall returned (zone_outcomes env target zones include_txt s) ->
  exists msg s',
    check_target env target zones include_txt concurrency s = (Raise (TypeError msg), s').
Proof.
  unfold zone_outcomes, check_target. intros Hraised.
  destruct (gather_total (check_single env target include_txt <$> zones) s)
    as (results & s1 & Hg & _).
  fold (zone_results env target zones include_txt) in Hg.
  rewrite Hg in Hraised. munfold. rewrite Hg.
  destruct (aggregate_unpack_failure results [] [] [] 0 Hraised) as [msg ->].
  by eexists _, _.
Qed.

(** While a run is past its prologue the flag is set, which is the state a
    second call meets. *)
Lemma run_started_sets_flag env triggered_by s run s0 :
  run_started env triggered_by s = (Ok run, s0) ->
  _is_running s0 = true
  /\ trace s0 = trace s ++ [EvGuardTaken; EvRunCreated run]
  /\ db_runs s0 !! run
     = Some (mkRun run triggered_by "running" None 0 0 0 0 0 0 (clock s) None None).
Proof.
  unfold run_started, add_run. munfold. cbn.
  match goal with |- context [db_statement env ?st] => set (s1 := st) end.
  destruct (db_statement env s1) as [[[]|e] s2] eqn:Hdb; [|discriminate].
  apply db_statement_frame in Hdb. subst s2. intros [= <- <-]. cbn.
  split; [done|]. split; [by rewrite <- (assoc_L (++))|]. apply lookup_insert_eq.
Qed.

(** One row per pair is kept by the whole persist step of a run. *)
Lemma keeps_unique_bind {A B} (m : M A) (k : A -> M B) :
  keeps_unique m -> (forall a, keeps_unique (k a)) -> keeps_unique (m ≫= k).
Proof.
  intros Hm Hk s r s'. munfold. destruct (m s) as [[a|e] s1] eqn:Hms.
  - intros Hks Hu. eapply Hk; [done|]. by eapply Hm.
  - intros [= <- <-] Hu. by eapply Hm.
Qed.

Lemma keeps_unique_ret {A} (a : A) : keeps_unique (mret a).
Proof. intros s r s'. munfold. by intros [= <- <-]. Qed.

Lemma keeps_unique_for_counts {A} (body : Counts -> A -> M Counts) l c :
  (forall c x, keeps_unique (body c x)) -> keeps_unique (for_counts l body c).
Proof.
  intros Hb. revert c. induction l as [|x l IH]; intros c; cbn; [apply keeps_unique_ret|].
  apply keeps_unique_bind; [done|]. intros; apply IH.
Qed.

Lemma keeps_unique_create_alert target alert_type zone old new message :
  keeps_unique (_create_alert target alert_type zone old new message).
Proof. intros s r s'. unfold _create_alert. munfold. by intros [= <- <-]. Qed.

Lemma process_results_keeps_unique env prev zone_map run target_map results :
  keeps_unique (process_results env prev zone_map run target_map results).
Proof.
  assert (Hsave : forall target zone status recs reason,
             keeps_unique (_save_check_result env target zone status recs run reason)).
  { intros target zone status recs reason s r s' H. by eapply _save_check_result_unique. }
  unfold process_results. apply keeps_unique_for_counts. intros c result.
  unfold process_result. case_match; [|apply keeps_unique_ret].
  apply keeps_unique_bind; [|intros c1; apply keeps_unique_bind]; [| |intros c2];
    apply keeps_unique_for_counts; intros c' entry.
  - unfold process_listed. case_match; [|apply keeps_unique_ret].
    apply keeps_unique_bind; [apply Hsave|]. intros _.
    apply keeps_unique_bind; [|intros; apply keeps_unique_ret].
    case_bool_decide; [apply keeps_unique_create_alert|apply keeps_unique_ret].
  - unfold process_blocked. case_match; [|apply keeps_unique_ret].
    apply keeps_unique_bind; [apply Hsave|]. intros _.
    apply keeps_unique_bind; [|intros; apply keeps_unique_ret].
    case_bool_decide; [apply keeps_unique_create_alert|apply keeps_unique_ret].
  - unfold process_error. case_match; [|apply keeps_unique_ret].
    apply keeps_unique_bind; [apply Hsave|intros; apply keeps_unique_ret].
Qed.

(** *** The snapshot *)

Lemma unique_pairs_inj rows x y :
  unique_pairs rows -> x ∈ rows -> y ∈ rows -> pair_of x = pair_of y -> x = y.
Proof.
  unfold unique_pairs. induction rows as [|r rows IH]; cbn; [by intros _ ?%elem_of_nil|].
  intros [Hnotin Hnodup]%NoDup_cons [->|Hx]%elem_of_cons [->|Hy]%elem_of_cons Hpair;
    [done| | |by apply IH].
  - destruct Hnotin. rewrite Hpair. by apply list_elem_of_fmap_2.
  - destruct Hnotin. rewrite <- Hpair. by apply list_elem_of_fmap_2.
Qed.

Section Snapshot.
Context (env : Env) (rows : list CheckResultRow) (zones : list Zone).
Context (Hunique : unique_pairs rows).

(** The inner loop over the rows found for one target. *)
Lemma snapshot_rows_lookup (tid : Z) (found : list CheckResultRow)
    (acc : gmap (Z * Z) string) (k : Z * Z) (st : string) :
  (forall row, row ∈ found -> row ∈ rows /\ cr_target_id row = tid) ->
  foldl (fun m pr => <[(tid, cr_zone_id pr) := cr_status pr]> m) acc found !! k = Some st
  <-> (exists row, row ∈ found /\ pair_of row = k /\ cr_status row = st)
      \/ (acc !! k = Some st /\ ~ exists row, row ∈ found /\ pair_of row = k).
Proof.
  revert acc. induction found as [|x found IH]; intros acc Hfound; cbn.
  - split; [intros H; right; split; [done|]|].
    + by intros (row & ?%elem_of_nil & _).
    + intros [(row & ?%elem_of_nil & _)|[H _]]; done.
  - assert (Hx : x ∈ rows /\ cr_target_id x = tid) by (apply Hfound; left).
    assert (Hkey : (tid, cr_zone_id x) = pair_of x)
      by (unfold pair_of; by rewrite (proj2 Hx)).
    rewrite IH by (intros row Hrow; apply Hfound; by right). rewrite Hkey.
    destruct (decide (pair_of x = k)) as [Hk|Hk].
    + rewrite Hk, lookup_insert_eq. split.
      * intros [(row & Hrow & Hp & Hs)|[[= Hs] _]]; left.
        -- exists row. split; [by right|done].
        -- exists x. split; [by left|done].
      * intros [(row & [->|Hrow]%elem_of_cons & Hp & Hs)|[_ Hno]].
        -- destruct (decide (Exists (fun r => pair_of r = k) found)) as [Hex|Hex].
           ++ apply Exists_exists in Hex as (row' & Hrow' & Hp').
              left. exists row'. split; [done|]. split; [done|].
              assert (row' = x) as ->; [|done].
              apply (unique_pairs_inj rows);
                [done|by apply Hfound; right|by apply Hx|congruence].
           ++ right. split; [by rewrite Hs|].
              intros (row' & Hrow' & Hp'). apply Hex, Exists_exists. eauto.
        -- left. eauto.
        -- destruct Hno. exists x. split; [by left|done].
    + rewrite lookup_insert_ne by done. split.
      * intros [(row & Hrow & Hp & Hs)|[Hacc Hno]].
        -- left. exists row. split; [by right|done].
        -- right. split; [done|]. intros (row & [->|Hrow]%elem_of_cons & Hp); [done|].
           apply Hno. eauto.
      * intros [(row & [->|Hrow]%elem_of_cons & Hp & Hs)|[Hacc Hno]]; [done|left; eauto|].
        right. split; [done|]. intros (row & Hrow & Hp). apply Hno.
        exists row. split; [by right|done].
Qed.

(** The snapshot reads the store and does not write it; starting from a map
    that agrees with the store on the targets seen so far, it ends with one
    that agrees on those and on [targets]. *)
Lemma snapshot_agrees targets P acc s prev s' :
  db_check_results s = rows ->
  agrees rows zones P acc ->
  snapshot env targets zones acc s = (Ok prev, s') ->
  db_check_results s' = rows
  /\ agrees rows zones (fun tid => tid ∈ target_id <$> targets \/ P tid) prev.
Proof.
  revert P acc s. induction targets as [|t targets IH]; intros P acc s Hrows Hacc; cbn.
  - munfold. intros [= <- <-]. split; [done|]. intros k st. rewrite (Hacc k st).
    split; [intros (? & ? & ?); by eauto|].
    by intros ([?%elem_of_nil|?] & ? & ?).
  - munfold. destruct (db_statement env s) as [[[]|e] s1] eqn:Hdb; [|discriminate].
    apply db_statement_frame in Hdb. subst s1. cbn. rewrite Hrows.
    set (found := List.filter _ rows).
    assert (Hfound : forall row,
               row ∈ found
               <-> row ∈ rows /\ cr_target_id row = target_id t
                   /\ cr_zone_id row ∈ zone_id <$> zones).
    { intros row. subst found.
      rewrite (list_elem_of_In (List.filter _ rows) row), (list_elem_of_In rows row).
      rewrite filter_In, andb_true_iff, Z.eqb_eq, bool_decide_eq_true. tauto. }
    intros Hrest.
    eapply (IH (fun tid => tid = target_id t \/ P tid)) in Hrest as [Hrows' Hprev];
      [| done |].
    + split; [done|]. intros k st. rewrite (Hprev k st).
      split; intros (Hin & Hz & Hrow); (split; [|done]).
      * destruct Hin as [Hin|[->|HP]]; [left; by right|left; by left|by right].
      * destruct Hin as [[->|Hin]%elem_of_cons|HP]; [right; by left|by left|right; by right].
    + intros k st.
      rewrite (snapshot_rows_lookup (target_id t) found acc k st)
        by (intros row Hrow%Hfound; tauto).
      split.
      * intros [(row & (Hrow & Ht & Hz)%Hfound & Hp & Hs)|[Hk _]].
        -- subst k. cbn. split; [by left|]. split; [done|]. eauto.
        -- apply Hacc in Hk as (HP & Hz & Hrow). split; [by right|done].
      * intros (Hin & Hz & row & Hrow & Hp & Hs).
        destruct (decide (k.1 = target_id t)) as [Hk|Hk].
        -- left. exists row. split; [|done]. apply Hfound.
           subst k. cbn in *. done.
        -- right. split.
           ++ apply Hacc. destruct Hin as [?|HP]; [done|].
              split; [done|]. split; [done|]. by exists row.
           ++ intros (row' & (_ & Ht & _)%Hfound & Hp'). apply Hk.
              rewrite <- Hp'. exact Ht.
Qed.
End Snapshot.

(** The map that [run_monitoring] compares against holds, for every pair in
    scope, the status stored before the run, and nothing else. *)
Lemma snapshot_reads_store env targets zones s prev s' :
  unique_pairs (db_check_results s) ->
  snapshot env targets zones ∅ s = (Ok prev, s') ->
  db_check_results s' = db_check_results s
  /\ forall tid zid st,
       prev !! (tid, zid) = Some st
       <-> tid ∈ target_id <$> targets /\ zid ∈ zone_id <$> zones
           /\ exists row,
                row ∈ db_check_results s /\ pair_of row = (tid, zid) /\ cr_status row = st.
Proof.
  intros Hunique Hsnap.
  destruct (snapshot_agrees env (db_check_results s) zones Hunique targets
              (fun _ => False) ∅ s prev s' eq_refl) as [Hrows Hprev]; [|done|].
  { intros k st. rewrite lookup_empty. split; [done|]. by intros []. }
  split; [done|]. intros tid zid st. rewrite (Hprev (tid, zid) st). cbn. tauto.
Qed.

(** * Further properties of the same modules *)

(** ** Addresses and query names *)

Lemma append_cons c p q : String c p +:+ q = String c (p +:+ q).
Proof. reflexivity. Qed.

Lemma append_dot r : "." +:+ r = String "."%char r.
Proof. reflexivity. Qed.

Lemma append_empty_r p : p +:+ "" = p.
Proof. induction p as [|c p IH]; [done|]. by rewrite append_cons, IH. Qed.

Lemma append_assoc p q r : (p +:+ q) +:+ r = p +:+ q +:+ r.
Proof. induction p as [|c p IH]; [done|]. by rewrite !append_cons, IH. Qed.

Lemma chars_app p q : chars (p +:+ q) = chars p ++ chars q.
Proof.
  unfold chars. induction p as [|c p IH]; [done|].
  rewrite append_cons. cbn. by rewrite IH.
Qed.

Lemma digit_is_plain c :
  ipaddress.is_ascii_digit c = true -> c <> "."%char /\ c <> "/"%char.
Proof. intros Hd. split; intros ->; vm_compute in Hd; discriminate. Qed.

(** A segment without a dot is one piece of the split. *)
Lemma split_dot_from_segment p cur :
  Forall (fun c => c <> "."%char) (chars p) ->
  (forall rest,
      ipaddress.split_dot_from cur (p +:+ String "."%char rest)
      = (cur +:+ p) :: ipaddress.split_dot_from "" rest)
  /\ ipaddress.split_dot_from cur p = [cur +:+ p].
Proof.
  revert cur. induction p as [|c p IH]; intros cur Hp.
  - rewrite append_empty_r. split; [|done]. intros rest.
    change ("" +:+ ?r) with r. cbn. done.
  - apply Forall_cons in Hp as [Hc Hp].
    destruct (IH (cur +:+ String c "") Hp) as [IH1 IH2].
    assert (Happ : (cur +:+ String c "") +:+ p = cur +:+ String c p)
      by (by rewrite append_assoc).
    split; [intros rest; rewrite append_cons|]; cbn;
      (destruct (Ascii.eqb_spec c "."%char) as [->|_]; [done|]).
    + by rewrite IH1, Happ.
    + by rewrite IH2, Happ.
Qed.

(** The decimal text of an octet is made of digits and reads back as the
    octet. *)
Lemma octet_text n :
  octet n ->
  Forall (fun c => ipaddress.is_ascii_digit c = true) (chars (pretty n))
  /\ ipaddress._parse_octet (pretty n) = Some n.
Proof.
  unfold octet. intros Hn.
  assert (Hall : forallb (fun k =>
                    forallb ipaddress.is_ascii_digit (chars (pretty k))
                    && bool_decide (ipaddress._parse_octet (pretty k) = Some k))
                   (seqZ 0 256) = true) by (vm_compute; reflexivity).
  rewrite forallb_forall in Hall. specialize (Hall n).
  rewrite andb_true_iff, forallb_forall, bool_decide_eq_true in Hall.
  destruct Hall as [Hd Hp]; [apply list_elem_of_In, elem_of_seqZ; lia|].
  split; [|done]. apply Forall_forall. intros c Hc. by apply Hd, list_elem_of_In.
Qed.

Lemma to_bytes_from_bytes a b c d :
  octet a -> octet b -> octet c -> octet d ->
  ipaddress.to_bytes_big (ipaddress.from_bytes_big [a; b; c; d]) = [a; b; c; d].
Proof.
  unfold octet, ipaddress.to_bytes_big, ipaddress.from_bytes_big. cbn.
  intros Ha Hb Hc Hd. rewrite !Z.shiftr_div_pow2 by lia.
  change (2 ^ 24) with 16777216. change (2 ^ 16) with 65536. change (2 ^ 8) with 256.
  set (x := 256 * (256 * (256 * (256 * 0 + a) + b) + c) + d).
  assert (H24 : x `div` 16777216 = a)
    by (symmetry; apply (Z.div_unique_pos _ _ _ (65536 * b + 256 * c + d)); subst x; lia).
  assert (H16 : x `div` 65536 = 256 * a + b)
    by (symmetry; apply (Z.div_unique_pos _ _ _ (256 * c + d)); subst x; lia).
  assert (H8 : x `div` 256 = 65536 * a + 256 * b + c)
    by (symmetry; apply (Z.div_unique_pos _ _ _ d); subst x; lia).
  rewrite H24, H16, H8.
  repeat f_equal.
  - symmetry. apply (Z.mod_unique_pos _ _ 0); lia.
  - symmetry. apply (Z.mod_unique_pos _ _ a); lia.
  - symmetry. apply (Z.mod_unique_pos _ _ (256 * a + b)); lia.
  - symmetry. apply (Z.mod_unique_pos _ _ (65536 * a + 256 * b + c)); subst x; lia.
Qed.

Lemma split_dot_quad p1 p2 p3 p4 :
  Forall (fun c => c <> "."%char) (chars p1) ->
  Forall (fun c => c <> "."%char) (chars p2) ->
  Forall (fun c => c <> "."%char) (chars p3) ->
  Forall (fun c => c <> "."%char) (chars p4) ->
  ipaddress.split_dot (p1 +:+ "." +:+ p2 +:+ "." +:+ p3 +:+ "." +:+ p4) = [p1; p2; p3; p4].
Proof.
  intros H1 H2 H3 H4. unfold ipaddress.split_dot.
  rewrite !append_dot.
  rewrite (proj1 (split_dot_from_segment p1 "" H1)).
  rewrite (proj1 (split_dot_from_segment p2 "" H2)).
  rewrite (proj1 (split_dot_from_segment p3 "" H3)).
  rewrite (proj2 (split_dot_from_segment p4 "" H4)). done.
Qed.

(** Four octets written as a dotted quad parse to the address they spell. *)
Lemma IPv4Address_dotted_quad a b c d :
  octet a -> octet b -> octet c -> octet d ->
  ipaddress.IPv4Address (dotted_quad a b c d) = Some (ipaddress.from_bytes_big [a; b; c; d]).
Proof.
  intros Ha Hb Hc Hd.
  destruct (octet_text a Ha) as [Da Pa], (octet_text b Hb) as [Db Pb],
    (octet_text c Hc) as [Dc Pc], (octet_text d Hd) as [Dd Pd].
  assert (Hdot : forall p, Forall (fun c => ipaddress.is_ascii_digit c = true) (chars p) ->
                           Forall (fun c => c <> "."%char) (chars p)).
  { intros p Hp. eapply Forall_impl; [exact Hp|]. intros ch Hch. by apply digit_is_plain. }
  unfold ipaddress.IPv4Address.
  assert (Hslash : existsb (Ascii.eqb "/"%char) (chars (dotted_quad a b c d)) = false).
  { apply not_true_is_false. intros (ch & Hin & Heq)%existsb_exists.
    apply Ascii.eqb_eq in Heq. subst ch. apply list_elem_of_In in Hin.
    unfold dotted_quad in Hin. rewrite !chars_app, !elem_of_app in Hin.
    assert (Hno : forall p, "/"%char ∈ chars p ->
                            Forall (fun c => ipaddress.is_ascii_digit c = true) (chars p) ->
                            False).
    { intros p Hin' Hp. rewrite Forall_forall in Hp. specialize (Hp _ Hin').
      by apply digit_is_plain in Hp as [_ ?]. }
    assert (Hsep : "/"%char ∈ chars "." -> False).
    { cbn. intros [?|?%elem_of_nil]%elem_of_cons; [discriminate|done]. }
    destruct Hin as [Hin|[Hin|[Hin|[Hin|[Hin|[Hin|Hin]]]]]];
      first [by apply Hsep in Hin | by (apply Hno in Hin; [done|assumption])]. }
  fold (chars (dotted_quad a b c d)). rewrite Hslash.
  assert (Hne : String.eqb (dotted_quad a b c d) "" = false).
  { unfold dotted_quad. destruct (pretty a); done. }
  rewrite Hne. unfold dotted_quad. rewrite split_dot_quad by auto. cbn.
  by rewrite Pa, Pb, Pc, Pd.
Qed.

(** X1: the query for the address a.b.c.d under a zone is d.c.b.a.zone. *)
Theorem _build_dnsbl_query_reverses_octets a b c d zone :
  octet a -> octet b -> octet c -> octet d ->
  _build_dnsbl_query (dotted_quad a b c d) zone = dotted_quad d c b a +:+ "." +:+ zone.
Proof.
  intros Ha Hb Hc Hd. unfold _build_dnsbl_query.
  rewrite IPv4Address_dotted_quad by done.
  unfold ipaddress.to_str. rewrite to_bytes_from_bytes by done. cbn [fmap list_fmap].
  assert (Hdot : forall n, octet n -> Forall (fun c => c <> "."%char) (chars (pretty n))).
  { intros n Hn. destruct (octet_text n Hn) as [Dn _].
    eapply Forall_impl; [exact Dn|]. intros ch Hch. by apply digit_is_plain. }
  change (ipaddress.join_dot [pretty a; pretty b; pretty c; pretty d])
    with (pretty a +:+ "." +:+ pretty b +:+ "." +:+ pretty c +:+ "." +:+ pretty d).
  rewrite split_dot_quad by auto. done.
Qed.

Lemma _build_dnsbl_query_reverses_octets_witness :
  _build_dnsbl_query (dotted_quad 192 0 2 17) "zen.spamhaus.org"
  = dotted_quad 17 2 0 192 +:+ "." +:+ "zen.spamhaus.org".
Proof.
  apply (_build_dnsbl_query_reverses_octets 192 0 2 17 "zen.spamhaus.org");
    unfold octet; lia.
Defined.

(** A character other than the dot ends up in one of the pieces. *)
Lemma split_dot_from_covers ch text cur :
  ch <> "."%char ->
  ch ∈ chars cur \/ ch ∈ chars text ->
  exists piece, piece ∈ ipaddress.split_dot_from cur text /\ ch ∈ chars piece.
Proof.
  intros Hch. revert cur. induction text as [|x rest IH]; intros cur Hin; cbn.
  - exists cur. split; [by left|]. by destruct Hin as [?|?%elem_of_nil].
  - destruct (Ascii.eqb_spec x "."%char) as [->|Hx].
    + destruct Hin as [Hin|[?|Hin]%elem_of_cons]; [exists cur; split; [by left|done]|done|].
      destruct (IH "" (or_intror Hin)) as (piece & Hp & Hc).
      exists piece. split; [by right|done].
    + apply IH. rewrite chars_app. cbn.
      destruct Hin as [Hin|[->|Hin]%elem_of_cons]; [left|left|by right].
      * apply elem_of_app. by left.
      * apply elem_of_app. right. by left.
Qed.

(** A text with a character that is neither a digit nor a dot is no IPv4
    address. *)
Lemma IPv4Address_rejects_names text ch :
  ch ∈ chars text -> ipaddress.is_ascii_digit ch = false -> ch <> "."%char ->
  ipaddress.IPv4Address text = None.
Proof.
  intros Hin Hdigit Hdot. unfold ipaddress.IPv4Address.
  destruct (existsb _ _); [done|]. destruct (String.eqb text ""); [done|].
  destruct (negb _); [done|].
  destruct (mapM ipaddress._parse_octet (ipaddress.split_dot text)) as [octets|] eqn:Hm;
    [|done].
  apply mapM_Some in Hm.
  destruct (split_dot_from_covers ch text "" Hdot (or_intror Hin)) as (piece & Hp & Hc).
  apply list_elem_of_lookup in Hp as [i Hi].
  destruct (Forall2_lookup_l _ _ _ _ _ Hm Hi) as (n & _ & Hparse).
  unfold ipaddress._parse_octet in Hparse.
  destruct piece as [|c0 piece]; [discriminate|].
  assert (Hall : forallb ipaddress.is_ascii_digit (chars (String c0 piece)) = false).
  { apply not_true_is_false. intros Hall. rewrite forallb_forall in Hall.
    apply list_elem_of_In, Hall in Hc. congruence. }
  unfold chars in Hall. by rewrite Hall in Hparse.
Qed.

(** X2: a name, that is a target with a character other than digits and
    dots, is queried as it stands, prefixed to the zone. *)
Theorem _build_dnsbl_query_keeps_names target zone ch :
  ch ∈ chars target -> ipaddress.is_ascii_digit ch = false -> ch <> "."%char ->
  _build_dnsbl_query target zone = target +:+ "." +:+ zone.
Proof.
  intros Hin Hdigit Hdot. unfold _build_dnsbl_query.
  by rewrite (IPv4Address_rejects_names target ch).
Qed.

Lemma _build_dnsbl_query_keeps_names_witness :
  _build_dnsbl_query "mail.example.org" "dbl.spamhaus.org"
  = "mail.example.org" +:+ "." +:+ "dbl.spamhaus.org".
Proof.
  apply (_build_dnsbl_query_keeps_names "mail.example.org" "dbl.spamhaus.org" "m"%char).
  - apply list_elem_of_here.
  - reflexivity.
  - discriminate.
Defined.

(** *** The reserved ranges *)

Lemma int_of_digits_nonneg digits :
  forallb ipaddress.is_ascii_digit (chars digits) = true ->
  0 <= ipaddress.int_of_digits digits.
Proof.
  unfold ipaddress.int_of_digits. fold (chars digits).
  assert (Hgen : forall l acc,
             forallb ipaddress.is_ascii_digit l = true -> 0 <= acc ->
             0 <= foldl (fun acc c => 10 * acc + ipaddress.digit_value c) acc l).
  { induction l as [|c l IH]; intros acc Hl Hacc; cbn in *; [done|].
    apply andb_true_iff in Hl as [Hc Hl]. apply IH; [done|].
    unfold ipaddress.is_ascii_digit, ipaddress.digit_value in *.
    apply andb_true_iff in Hc as [Hlo _]. apply Z.leb_le in Hlo. lia. }
  intros Hd. by apply Hgen.
Qed.

Lemma _parse_octet_range text n : ipaddress._parse_octet text = Some n -> octet n.
Proof.
  unfold ipaddress._parse_octet, octet. destruct text as [|c0 text]; [done|].
  destruct (forallb _ _) eqn:Hd; cbn [negb]; [|done].
  destruct (_ <? _)%nat; [done|]. destruct (_ && _); [done|].
  destruct (255 <? _) eqn:Hhi; [done|]. intros [= <-].
  apply Z.ltb_ge in Hhi. split; [|done]. by apply int_of_digits_nonneg.
Qed.

(** A parsed address is a 32-bit number. *)
Lemma IPv4Address_range text ip :
  ipaddress.IPv4Address text = Some ip -> 0 <= ip < 2 ^ 32.
Proof.
  unfold ipaddress.IPv4Address. destruct (existsb _ _); [done|].
  destruct (String.eqb text ""); [done|].
  destruct (length (ipaddress.split_dot text) =? 4)%nat eqn:Hlen; cbn [negb]; [|done].
  destruct (mapM ipaddress._parse_octet (ipaddress.split_dot text)) as [octets|] eqn:Hm;
    [|done].
  cbn. intros [= <-]. apply mapM_Some in Hm. apply Nat.eqb_eq in Hlen.
  pose proof (Forall2_length _ _ _ Hm) as Hlen'. rewrite Hlen in Hlen'.
  destruct octets as [|a [|b [|c [|d [|]]]]]; try discriminate.
  assert (Hoct : Forall octet [a; b; c; d]).
  { apply Forall_forall. intros n [i Hi]%list_elem_of_lookup.
    destruct (Forall2_lookup_r _ _ _ _ _ Hm Hi) as (piece & _ & Hp).
    by eapply _parse_octet_range. }
  unfold octet in Hoct. repeat (apply Forall_cons in Hoct as [? Hoct]).
  unfold ipaddress.from_bytes_big. cbn. lia.
Qed.

(** The netmask test of a /24 in arithmetic: the address without its last
    octet. *)
Lemma land_netmask_24 ip :
  0 <= ip < 2 ^ 32 -> Z.land ip 0xFFFFFF00 = 256 * (ip `div` 256).
Proof.
  intros Hip.
  change 0xFFFFFF00 with (Z.ldiff (Z.ones 32) (Z.ones 8)).
  rewrite Z.ldiff_land, Z.land_assoc, Z.land_ones by lia.
  rewrite Z.mod_small by lia.
  rewrite <- Z.ldiff_land, Z.ldiff_ones_r by lia.
  rewrite Z.shiftl_mul_pow2, Z.shiftr_div_pow2 by lia.
  change (2 ^ 8) with 256. lia.
Qed.

Lemma in_network_24 ip base :
  0 <= ip < 2 ^ 32 -> base `mod` 256 = 0 ->
  ipaddress.in_network ip base 0xFFFFFF00 = true <-> base <= ip <= base + 255.
Proof.
  intros Hip Hbase. unfold ipaddress.in_network.
  rewrite Z.eqb_eq, land_netmask_24 by done.
  pose proof (Z.div_mod ip 256 ltac:(lia)). pose proof (Z.mod_pos_bound ip 256 ltac:(lia)).
  pose proof (Z.div_mod base 256 ltac:(lia)).
  split; [lia|]. intros Hrange.
  assert (ip `div` 256 = base `div` 256); [|lia].
  symmetry. apply (Z.div_unique_pos _ _ _ (ip - base)); lia.
Qed.

(** X3: [_is_spamhaus_blocked] holds exactly for the texts that parse to an
    address of 127.255.255.0/24 and [_is_spamhaus_listed] exactly for those
    of 127.0.0.0/24; no text satisfies both, and a text that is no address
    satisfies neither. *)
Theorem spamhaus_ranges ip_str :
  (_is_spamhaus_blocked ip_str = true
   <-> exists ip, ipaddress.IPv4Address ip_str = Some ip /\ in_blocked_range ip)
  /\ (_is_spamhaus_listed ip_str = true
      <-> exists ip, ipaddress.IPv4Address ip_str = Some ip /\ in_listed_range ip)
  /\ ~ (_is_spamhaus_blocked ip_str = true /\ _is_spamhaus_listed ip_str = true).
Proof.
  unfold _is_spamhaus_blocked, _is_spamhaus_listed, in_blocked_range, in_listed_range.
  destruct (ipaddress.IPv4Address ip_str) as [ip|] eqn:Hparse.
  - apply IPv4Address_range in Hparse.
    pose proof (in_network_24 ip 0x7FFFFF00 Hparse eq_refl) as Hb.
    pose proof (in_network_24 ip 0x7F000000 Hparse eq_refl) as Hl.
    split; [|split].
    + rewrite Hb. split; [intros ?; exists ip; split; [done|lia]|].
      intros (ip' & [= <-] & ?). lia.
    + rewrite Hl. split; [intros ?; exists ip; split; [done|lia]|].
      intros (ip' & [= <-] & ?). lia.
    + rewrite Hb, Hl. lia.
  - split; [|split]; [split; [done|by intros (? & ? & _)]..|by intros [? _]].
Qed.

(** ** More on the rate limiter *)





(** X5: with a limit of zero or less, [acquire] for a zone without a stamp
    in the last second indexes an empty list: it raises [IndexError] and
    grants nothing. *)
Theorem acquire_without_limit_raises env zone s :
  max_requests env <= 0 ->
  Forall (fun t => t <= clock s - second) (requests s !!! zone) ->
  exists s',
    RateLimiter.acquire env zone s = (Raise (IndexError "list index out of range"), s')
    /\ clock s' = clock s
    /\ requests s' !!! zone = [].
Proof.
  intros Hmax Hold. unfold RateLimiter.acquire. munfold. cbn.
  rewrite lookup_total_insert_eq.
  assert (Hrecent : RateLimiter.recent (clock s - second) (requests s !!! zone) = []).
  { unfold RateLimiter.recent. induction Hold as [|t stamps Ht _ IH]; [done|].
    rewrite filter_cons, decide_False by lia. done. }
  rewrite Hrecent. cbn.
  destruct (max_requests env <=? _) eqn:Hfull; [|apply Z.leb_gt in Hfull; cbn in Hfull; lia].
  eexists. split; [done|]. cbn. by rewrite lookup_total_insert_eq.
Qed.

Lemma acquire_without_limit_raises_witness :
  exists s',
    RateLimiter.acquire Scenario2.env_limit0 "z" Scenario.initial
    = (Raise (IndexError "list index out of range"), s')
    /\ clock s' = clock Scenario.initial
    /\ requests s' !!! "z" = [].
Proof.
  apply (acquire_without_limit_raises Scenario2.env_limit0 "z" Scenario.initial).
  - vm_compute. discriminate.
  - vm_compute. constructor.
Defined.



(** ** More on lookups and the cache *)

Lemma append_colon r : ":" +:+ r = String ":"%char r.
Proof. reflexivity. Qed.

(** A text is split in one way only at a colon followed by a colon-free
    rest. *)
Lemma colon_split_unique a a' b b' :
  colon_free b -> colon_free b' ->
  a +:+ ":" +:+ b = a' +:+ ":" +:+ b' -> a = a' /\ b = b'.
Proof.
  unfold colon_free. intros Hb Hb'. revert a'.
  assert (Hin : forall p q, ":"%char ∈ chars (p +:+ ":" +:+ q)).
  { intros p q. rewrite chars_app, append_colon, elem_of_app. right. cbn. by left. }
  assert (Hnil : forall r, "" +:+ r = r) by reflexivity.
  induction a as [|x a IH]; intros [|y a']; rewrite ?append_cons, ?Hnil.
  - by intros [= ->].
  - intros [= _ ->]. destruct Hb. apply (Hin a' b').
  - intros [= _ <-]. destruct Hb'. apply (Hin a b).
  - intros [= -> Heq]. by destruct (IH _ Heq) as [-> ->].
Qed.

(** X7: for zones and record kinds without a colon, the cache key
    determines the (target, zone, record kind) triple: two different
    lookups never share a cache entry. *)
Theorem _make_cache_key_injective target zone rrtype target' zone' rrtype' :
  colon_free zone -> colon_free rrtype -> colon_free zone' -> colon_free rrtype' ->
  _make_cache_key target zone rrtype = _make_cache_key target' zone' rrtype' ->
  target = target' /\ zone = zone' /\ rrtype = rrtype'.
Proof.
  unfold _make_cache_key. intros Hz Hr Hz' Hr' Hkey.
  assert (Hassoc : forall t z r,
             t +:+ ":" +:+ z +:+ ":" +:+ r = (t +:+ ":" +:+ z) +:+ ":" +:+ r)
    by (intros; by rewrite !append_assoc).
  rewrite !Hassoc in Hkey.
  apply colon_split_unique in Hkey as [Hkey ->]; [|done..].
  apply colon_split_unique in Hkey as [-> ->]; done.
Qed.

Lemma _make_cache_key_injective_witness :
  "1.2.3.4" = "1.2.3.4" /\ "zen.spamhaus.org" = "zen.spamhaus.org" /\ "TXT" = "TXT".
Proof.
  apply (_make_cache_key_injective "1.2.3.4" "zen.spamhaus.org" "TXT"
           "1.2.3.4" "zen.spamhaus.org" "TXT");
    first [reflexivity
          | unfold colon_free; apply (bool_decide_unpack _); vm_compute; exact I].
Defined.

(** X8: after [clear_cache] the statistics report no entry, and the next
    lookup of any triple asks the resolver and returns the classification of
    its reply. *)
Theorem clear_cache_forces_lookup env target zone rrtype s reply latency res :
  1 <= max_requests env -> 1 <= cache_maxsize env ->
  resolve env (dns_log s) (_build_dnsbl_query target zone) rrtype = (reply, latency) ->
  reply_classification reply = Some res ->
  (clear_cache;; get_cache_stats env) s
  = (Ok (0, cache_maxsize env, cache_ttl env), set_cache [] s)
  /\ exists s',
       (clear_cache;; _query_dns env target zone rrtype) s = (Ok res, s')
       /\ dns_log s' = dns_log s ++ [(_build_dnsbl_query target zone, rrtype)].
Proof.
  intros Hmax Hsize Hreply Hclass. split; [done|].
  assert (Hmiss : cache_miss (_make_cache_key target zone rrtype) (set_cache [] s))
    by (by intros e).
  destruct (_query_dns_fresh env target zone rrtype _ Hmax Hsize Hmiss) as (s1 & Hacq & Hrun).
  destruct (Hrun reply latency res Hreply Hclass) as (c & Hq & _). cbn in Hq.
  eexists. unfold clear_cache. munfold. split; [exact Hq|done].
Qed.

Lemma clear_cache_forces_lookup_witness :
  (clear_cache;; get_cache_stats Scenario.env) Scenario.initial
  = (Ok (0, cache_maxsize Scenario.env, cache_ttl Scenario.env),
     set_cache [] Scenario.initial)
  /\ exists s',
       (clear_cache;; _query_dns Scenario.env "9.9.9.9" "z" "A") Scenario.initial
       = (Ok ("timeout", []), s')
       /\ dns_log s'
          = dns_log Scenario.initial ++ [(_build_dnsbl_query "9.9.9.9" "z", "A")].
Proof.
  apply (clear_cache_forces_lookup Scenario.env "9.9.9.9" "z" "A" Scenario.initial
           Timeout 2500%nat).
  - vm_compute. discriminate.
  - vm_compute. discriminate.
  - vm_compute. reflexivity.
  - reflexivity.
Defined.

Lemma _set_cache_log env target zone rrtype value s r s' :
  _set_cache env target zone rrtype value s = (r, s') -> dns_log s' = dns_log s.
Proof.
  unfold _set_cache, TTLCache.set. destruct (_ <? _); by intros [= <- <-].
Qed.

(** One lookup issues at most one resolver call, for the query name of the
    target under the zone. *)
Lemma _query_dns_log env target zone rrtype s r s' :
  _query_dns env target zone rrtype s = (r, s') ->
  dns_log s' = dns_log s
  \/ dns_log s' = dns_log s ++ [(_build_dnsbl_query target zone, rrtype)].
Proof.
  unfold _query_dns. munfold.
  destruct (RateLimiter.acquire env zone s) as [[[]|e] s1] eqn:Hacq;
    destruct (acquire_frame _ _ _ _ _ Hacq) as (_ & Hlog & _);
    [|intros [= <- <-]; by left].
  unfold _get_cached, TTLCache.get.
  destruct (TTLCache.find_key _ _) as [e|];
    [case_bool_decide; [intros [= <- <-]; left; by rewrite <- Hlog|]|].
  all: unfold resolver_resolve; destruct (resolve _ _ _ _) as [reply latency];
    destruct reply;
    try (destruct (_set_cache _ _ _ _ _ _) as [[[]|e'] s4] eqn:Hset;
         apply _set_cache_log in Hset; cbn in Hset);
    intros [= <- <-]; right; cbn; congruence.
Qed.

(** X9: one [check_zone] issues at most the A query and the TXT query for
    the target under the zone, in that order, and the TXT query only when
    supplementary text was asked for and the result, if any, is [listed]. *)
Theorem check_zone_queries env target zone include_txt s r s' :
  check_zone env target zone include_txt s = (r, s') ->
  exists asked,
    dns_log s' = dns_log s ++ asked
    /\ asked `sublist_of` [(_build_dnsbl_query target zone, "A");
                           (_build_dnsbl_query target zone, "TXT")]
    /\ ((_build_dnsbl_query target zone, "TXT") ∈ asked ->
        include_txt = true /\ forall res, r = Ok res -> status res = "listed").
Proof.
  set (q := _build_dnsbl_query target zone).
  assert (Hnot : (q, "TXT") ∉ [(q, "A")]).
  { intros [[=]|?%elem_of_nil]%elem_of_cons. done. }
  assert (Hstop : forall (res : outcome CheckResult) s1,
             dns_log s1 = dns_log s \/ dns_log s1 = dns_log s ++ [(q, "A")] ->
             exists asked,
               dns_log s1 = dns_log s ++ asked
               /\ asked `sublist_of` [(q, "A"); (q, "TXT")]
               /\ ((q, "TXT") ∈ asked ->
                   include_txt = true /\ forall r', res = Ok r' -> status r' = "listed")).
  { intros res s1 [Hl|Hl].
    - exists []. rewrite app_nil_r. split; [done|]. split; [apply sublist_nil_l|].
      by intros ?%elem_of_nil.
    - exists [(q, "A")]. split; [done|].
      split; [apply sublist_skip, sublist_nil_l|]. by intros ?%Hnot. }
  unfold check_zone. munfold.
  destruct (_query_dns env target zone "A" s) as [[[a_status recs]|e] s1] eqn:Ha;
    apply _query_dns_log in Ha; fold q in Ha; [|intros [= <- <-]; by apply Hstop].
  destruct (in_pair a_status "nxdomain" "noanswer"); [intros [= <- <-]; by apply Hstop|].
  destruct (in_pair a_status "timeout" "error"); [intros [= <- <-]; by apply Hstop|].
  destruct recs as [|rec recs]; [intros [= <- <-]; by apply Hstop|].
  destruct (_ && _); [intros [= <- <-]; by apply Hstop|].
  destruct include_txt.
  - destruct (_query_dns env target zone "TXT" s1) as [[[t_status txt]|e] s2] eqn:Ht;
      apply _query_dns_log in Ht; fold q in Ht; intros [= <- <-].
    all: destruct Ha as [Ha|Ha], Ht as [Ht|Ht]; rewrite Ht, Ha, <- ?(assoc_L (++));
      [exists []|exists [(q, "TXT")]|exists [(q, "A")]|exists [(q, "A"); (q, "TXT")]];
      rewrite ?app_nil_r; (split; [done|]);
      (split; [repeat first [apply sublist_nil_l | apply sublist_skip | apply sublist_cons]|]);
      intros _; (split; [done|]); by intros ? [= <-].
  - intros [= <- <-].
    destruct (Hstop (Ok (mkCheckResult zone "listed" (rec :: recs) [] None)) s1 Ha)
      as (asked & ? & ? & Htxt).
    exists asked. split; [done|]. split; [done|]. intros Hin. by destruct (Htxt Hin).
Qed.

Lemma check_zone_queries_witness :
  exists asked,
    dns_log (check_zone Scenario.env "1.2.3.4" "z" true Scenario.initial).2
    = dns_log Scenario.initial ++ asked
    /\ asked `sublist_of` [(_build_dnsbl_query "1.2.3.4" "z", "A");
                           (_build_dnsbl_query "1.2.3.4" "z", "TXT")]
    /\ ((_build_dnsbl_query "1.2.3.4" "z", "TXT") ∈ asked ->
        true = true
        /\ forall res,
             (check_zone Scenario.env "1.2.3.4" "z" true Scenario.initial).1 = Ok res ->
             status res = "listed").
Proof.
  apply (check_zone_queries Scenario.env "1.2.3.4" "z" true Scenario.initial).
  vm_compute. reflexivity.
Defined.

(** The complement of the blocked branch: a success with at least one
    record is reported [listed] with the records as returned, whenever the
    zone has no special handling or no record lies in the blocked range. *)
Lemma check_zone_not_blocked env zone records :
  zone ∉ spamhaus_zones env \/ Forall (fun a => _is_spamhaus_blocked a = false) records ->
  bool_decide (zone ∈ spamhaus_zones env) && existsb _is_spamhaus_blocked records = false.
Proof.
  intros [Hzone|Hrecs].
  - by rewrite bool_decide_eq_false_2.
  - apply andb_false_iff. right. apply not_true_is_false.
    intros (a & Ha%list_elem_of_In & Hb)%existsb_exists.
    rewrite Forall_forall in Hrecs. by rewrite (Hrecs a Ha) in Hb.
Qed.

(** X10: a lookup success with at least one record, for a zone without
    special handling or with no record in the blocked range, is reported
    [listed] with the records as returned. With supplementary text asked
    for, the TXT lookup follows: its records are attached whatever its
    status, and only an exception of that lookup makes the check fail. *)
Theorem check_zone_listed env target zone s records s1 :
  _query_dns env target zone "A" s = (Ok ("success", records), s1) ->
  records <> [] ->
  zone ∉ spamhaus_zones env \/ Forall (fun a => _is_spamhaus_blocked a = false) records ->
  check_zone env target zone false s
  = (Ok (mkCheckResult zone "listed" records [] None), s1)
  /\ (forall t_status txt s2,
        _query_dns env target zone "TXT" s1 = (Ok (t_status, txt), s2) ->
        check_zone env target zone true s
        = (Ok (mkCheckResult zone "listed" records txt None), s2))
  /\ (forall e s2,
        _query_dns env target zone "TXT" s1 = (Raise e, s2) ->
        check_zone env target zone true s = (Raise e, s2)).
Proof.
  intros Hq Hne Hclear. apply check_zone_not_blocked in Hclear.
  destruct records as [|rec records]; [done|].
  unfold check_zone. munfold. rewrite Hq. cbn [in_pair String.eqb orb].
  change (in_pair "success" "nxdomain" "noanswer") with false.
  change (in_pair "success" "timeout" "error") with false. cbv iota.
  rewrite Hclear. repeat split.
  - intros t_status txt s2 Ht. by rewrite Ht.
  - intros e s2 Ht. by rewrite Ht.
Qed.

Lemma check_zone_listed_witness :
  check_zone Scenario.env "1.2.3.4" "z" false Scenario.initial
  = (Ok (mkCheckResult "z" "listed" ["127.0.0.2"] [] None),
     (_query_dns Scenario.env "1.2.3.4" "z" "A" Scenario.initial).2)
  /\ (forall t_status txt s2,
        _query_dns Scenario.env "1.2.3.4" "z" "TXT"
          (_query_dns Scenario.env "1.2.3.4" "z" "A" Scenario.initial).2
        = (Ok (t_status, txt), s2) ->
        check_zone Scenario.env "1.2.3.4" "z" true Scenario.initial
        = (Ok (mkCheckResult "z" "listed" ["127.0.0.2"] txt None), s2))
  /\ (forall e s2,
        _query_dns Scenario.env "1.2.3.4" "z" "TXT"
          (_query_dns Scenario.env "1.2.3.4" "z" "A" Scenario.initial).2
        = (Raise e, s2) ->
        check_zone Scenario.env "1.2.3.4" "z" true Scenario.initial = (Raise e, s2)).
Proof.
  apply (check_zone_listed Scenario.env "1.2.3.4" "z" Scenario.initial ["127.0.0.2"]).
  - vm_compute. reflexivity.
  - discriminate.
  - left. apply (bool_decide_unpack _). vm_compute. exact I.
Defined.

(** X11: when the resolver fails outside the DNS exception hierarchy, the
    lookup raises that exception after the resolver was asked, and caches
    nothing: the triple still misses the cache. The check of the zone fails
    with the same exception. *)
Theorem _query_dns_failure_not_cached env target zone rrtype s e latency :
  1 <= max_requests env ->
  cache_miss (_make_cache_key target zone rrtype) s ->
  resolve env (dns_log s) (_build_dnsbl_query target zone) rrtype = (Raises e, latency) ->
  exists s',
    _query_dns env target zone rrtype s = (Raise e, s')
    /\ cache s' = cache s
    /\ dns_log s' = dns_log s ++ [(_build_dnsbl_query target zone, rrtype)]
    /\ cache_miss (_make_cache_key target zone rrtype) s'
    /\ (rrtype = "A" ->
        forall include_txt, check_zone env target zone include_txt s = (Raise e, s')).
Proof.
  intros Hmax Hmiss Hreply.
  destruct (acquire_grants env zone s Hmax) as [s1 Hacq].
  destruct (acquire_frame _ _ _ _ _ Hacq) as (Hc & Hlog & _ & _ & _ & _ & _ & _ & _ & _ & Hclk).
  assert (Hget : _get_cached target zone rrtype s1 = (Ok None, s1)).
  { apply get_miss. intros e' He. rewrite Hc in He. specialize (Hmiss e' He). lia. }
  assert (Hq : _query_dns env target zone rrtype s
               = (Raise e,
                  set_clock (clock s1 + Z.of_nat latency)
                    (set_dns_log
                       (dns_log s ++ [(_build_dnsbl_query target zone, rrtype)]) s1))).
  { unfold _query_dns. munfold. rewrite Hacq, Hget.
    unfold resolver_resolve. by rewrite Hlog, Hreply. }
  eexists. split; [exact Hq|]. cbn. split; [done|]. split; [done|]. split.
  - intros e' He. cbn in *. rewrite Hc in He. specialize (Hmiss e' He). lia.
  - intros -> include_txt. unfold check_zone. munfold. by rewrite Hq.
Qed.

Lemma _query_dns_failure_not_cached_witness :
  exists s',
    _query_dns Scenario.env "1.2.3.4" "bad" "A" Scenario.initial
    = (Raise (OtherError "network down"), s')
    /\ cache s' = cache Scenario.initial
    /\ dns_log s'
       = dns_log Scenario.initial ++ [(_build_dnsbl_query "1.2.3.4" "bad", "A")]
    /\ cache_miss (_make_cache_key "1.2.3.4" "bad" "A") s'
    /\ ("A" = "A" ->
        forall include_txt,
          check_zone Scenario.env "1.2.3.4" "bad" include_txt Scenario.initial
          = (Raise (OtherError "network down"), s')).
Proof.
  apply (_query_dns_failure_not_cached Scenario.env "1.2.3.4" "bad" "A"
           Scenario.initial (OtherError "network down") 0%nat).
  - vm_compute. discriminate.
  - intros e. vm_compute. discriminate.
  - vm_compute. reflexivity.
Defined.

(** ** Frames *)

Section Within.
Context (R : State -> State -> Prop) `{!PreOrder R}.

Lemma within_ret {A} (a : A) : within R (mret a).
Proof. intros s r s'. munfold. by intros [= <- <-]. Qed.

Lemma within_raise {A} e : within R (@raise A e).
Proof. intros s r s'. munfold. by intros [= <- <-]. Qed.

Lemma within_gets {A} (f : State -> A) : within R (gets f).
Proof. intros s r s'. munfold. by intros [= <- <-]. Qed.

Lemma within_modify f : (forall s, R s (f s)) -> within R (modify f).
Proof. intros Hf s r s'. munfold. intros [= <- <-]. apply Hf. Qed.

Lemma within_bind {A B} (m : M A) (k : A -> M B) :
  within R m -> (forall a, within R (k a)) -> within R (m ≫= k).
Proof.
  intros Hm Hk s r s'. munfold.
  destruct (m s) as [[a|e] s1] eqn:Hms; specialize (Hm _ _ _ Hms).
  - intros Hks. by etrans; [|apply (Hk a _ _ _ Hks)].
  - by intros [= <- <-].
Qed.

Lemma within_try_except {A} (body : M A) handler :
  within R body -> (forall e, within R (handler e)) -> within R (try_except body handler).
Proof.
  intros Hb Hh s r s'. unfold try_except.
  destruct (body s) as [[a|e] s1] eqn:Hbs; specialize (Hb _ _ _ Hbs).
  - by intros [= <- <-].
  - intros Hhs. by etrans; [|apply (Hh e _ _ _ Hhs)].
Qed.

Lemma within_try_finally {A} (body : M A) fin :
  within R body -> within R fin -> within R (try_finally body fin).
Proof.
  intros Hb Hf s r s'. unfold try_finally.
  destruct (body s) as [rb s1] eqn:Hbs; specialize (Hb _ _ _ Hbs).
  destruct (fin s1) as [[[]|e] s2] eqn:Hfs; specialize (Hf _ _ _ Hfs);
    intros [= <- <-]; by etrans.
Qed.

Lemma within_gather {A} (tasks : list (M A)) :
  Forall (within R) tasks -> within R (gather tasks).
Proof.
  induction 1 as [|task tasks Htask _ IH]; cbn; [apply within_ret|].
  intros s r s'. destruct (task s) as [r1 s1] eqn:Hts. specialize (Htask _ _ _ Hts).
  intros Hrest.
  assert (Hq : within R (rs ← gather tasks; mret (r1 :: rs)))
    by (apply within_bind; [done|intros; apply within_ret]).
  by etrans; [|apply (Hq _ _ _ Hrest)].
Qed.

Lemma within_mapM {A B} (f : A -> M B) l : (forall x, within R (f x)) -> within R (mapM f l).
Proof.
  intros Hf. induction l as [|x l IH]; cbn; [apply within_ret|].
  apply within_bind; [done|]. intros b. apply within_bind; [done|]. intros; apply within_ret.
Qed.

Lemma within_for_counts {A} (body : Counts -> A -> M Counts) l c :
  (forall c x, within R (body c x)) -> within R (for_counts l body c).
Proof.
  intros Hb. revert c. induction l as [|x l IH]; intros c; cbn; [apply within_ret|].
  apply within_bind; [done|]. intros; apply IH.
Qed.

End Within.

#[local] Instance checker_step_preorder : PreOrder checker_step.
Proof.
  split.
  - by intros s.
  - intros s1 s2 s3 (? & ? & ? & ? & ?) (? & ? & ? & ? & ?).
    repeat split; [lia|by etrans|congruence..].
Qed.

(** ** More on the batch orchestrator *)

Lemma within_checker_acquire env zone : within checker_step (RateLimiter.acquire env zone).
Proof.
  intros s r s' H.
  destruct (acquire_frame _ _ _ _ _ H) as (_ & Hlog & ? & ? & ? & ? & ? & ? & ? & ? & ?).
  repeat split; [done|by rewrite Hlog|unfold store; congruence|done..].
Qed.

Lemma within_checker_get key : within checker_step (TTLCache.get key).
Proof.
  intros s r s'. unfold TTLCache.get.
  destruct (TTLCache.find_key key (cache s)); [case_bool_decide|]; by intros [= <- <-].
Qed.

Lemma within_checker_set env key value : within checker_step (TTLCache.set env key value).
Proof.
  intros s r s'. unfold TTLCache.set. by destruct (_ <? _); intros [= <- <-].
Qed.

Lemma within_checker_resolve env q rrtype :
  within checker_step (resolver_resolve env q rrtype).
Proof.
  intros s r s'. unfold resolver_resolve. destruct (resolve _ _ _ _) as [reply latency].
  intros [= <- <-]. repeat split; cbn; [lia|by apply prefix_app_r].
Qed.

Lemma within_checker_query_dns env target zone rrtype :
  within checker_step (_query_dns env target zone rrtype).
Proof.
  unfold _query_dns. apply (within_bind checker_step); [apply within_checker_acquire|]. intros _.
  apply (within_bind checker_step); [apply within_checker_get|].
  intros [c|]; [by apply (within_ret checker_step)|].
  apply (within_bind checker_step); [apply within_checker_resolve|].
  intros []; try (by apply (within_raise checker_step));
    (apply (within_bind checker_step); [apply within_checker_set|intros; by apply (within_ret checker_step)]).
Qed.

Lemma within_checker_check_zone env target zone include_txt :
  within checker_step (check_zone env target zone include_txt).
Proof.
  unfold check_zone. apply (within_bind checker_step); [apply within_checker_query_dns|].
  intros [a_status recs].
  repeat case_match; try (by apply (within_ret checker_step)).
  all: apply (within_bind checker_step); [|intros; by apply (within_ret checker_step)]; try (by apply (within_ret checker_step)).
  apply (within_bind checker_step); [apply within_checker_query_dns|].
  intros [? ?]. by apply (within_ret checker_step).
Qed.

Lemma within_checker_check_target env target zones include_txt concurrency :
  within checker_step (check_target env target zones include_txt concurrency).
Proof.
  unfold check_target, zone_results.
  apply (within_bind checker_step); [|intros results; repeat case_match;
                                 by first [apply (within_ret checker_step)|apply (within_raise checker_step)]].
  apply (within_gather checker_step). apply Forall_fmap, Forall_forall. intros zone _.
  apply (within_bind checker_step); [apply within_checker_check_zone|intros; by apply (within_ret checker_step)].
Qed.

(** X12: [check_multiple] only lets time pass and asks the resolver: the
    store, the running flag and the trace are as before, and the resolver
    calls made earlier are still the first of the log. *)
Theorem check_multiple_keeps_store env targets zones include_txt concurrency s r s' :
  check_multiple env targets zones include_txt concurrency s = (r, s') ->
  checker_step s s'.
Proof.
  revert s r s'. change (within checker_step
                           (check_multiple env targets zones include_txt concurrency)).
  unfold check_multiple.
  apply (within_bind checker_step); [|intros results; repeat case_match; by apply (within_ret checker_step)].
  apply (within_gather checker_step). apply Forall_fmap, Forall_forall. intros target _.
  apply within_checker_check_target.
Qed.

Lemma check_multiple_keeps_store_witness :
  checker_step Scenario.seen_listed
    (check_multiple Scenario.env ["1.2.3.4"; "5.6.7.8"] ["z"; "bad"] false 50
       Scenario.seen_listed).2.
Proof.
  apply (check_multiple_keeps_store Scenario.env ["1.2.3.4"; "5.6.7.8"] ["z"; "bad"]
           false 50 Scenario.seen_listed
           (check_multiple Scenario.env ["1.2.3.4"; "5.6.7.8"] ["z"; "bad"] false 50
              Scenario.seen_listed).1).
  vm_compute. reflexivity.
Defined.





(** ** More on the monitoring run *)

(** *** The snapshot and the stored outcomes *)

(** X14: over a table with one row per pair, the snapshot that
    [run_monitoring] compares against holds, for every pair in scope, the
    status stored before the run, and nothing else; taking it leaves the
    table as it is. *)
Theorem snapshot_holds_stored_statuses env targets zones s prev s' :
  unique_pairs (db_check_results s) ->
  snapshot env targets zones ∅ s = (Ok prev, s') ->
  db_check_results s' = db_check_results s
  /\ forall tid zid st,
       prev !! (tid, zid) = Some st
       <-> tid ∈ target_id <$> targets /\ zid ∈ zone_id <$> zones
           /\ exists row,
                row ∈ db_check_results s /\ pair_of row = (tid, zid) /\ cr_status row = st.
Proof. apply snapshot_reads_store. Qed.

Lemma snapshot_holds_stored_statuses_witness :
  db_check_results
    (snapshot Scenario.env Scenario.targets Scenario.zones ∅ Scenario.seen_listed).2
  = db_check_results Scenario.seen_listed
  /\ forall tid zid st,
       Scenario.previous !! (tid, zid) = Some st
       <-> tid ∈ target_id <$> Scenario.targets /\ zid ∈ zone_id <$> Scenario.zones
           /\ exists row,
                row ∈ db_check_results Scenario.seen_listed
                /\ pair_of row = (tid, zid) /\ cr_status row = st.
Proof.
  apply (snapshot_holds_stored_statuses Scenario.env Scenario.targets Scenario.zones
           Scenario.seen_listed Scenario.previous).
  - apply (bool_decide_unpack _). vm_compute. exact I.
  - vm_compute. reflexivity.
Defined.

(** X15: the persist step of a run keeps the outcome table at one row per
    (target, zone) pair, also when it is cut short by a failure. *)
Theorem process_results_one_row_per_pair env prev zone_map run target_map results s r s' :
  process_results env prev zone_map run target_map results s = (r, s') ->
  unique_pairs (db_check_results s) ->
  unique_pairs (db_check_results s').
Proof. apply process_results_keeps_unique. Qed.

Lemma process_results_one_row_per_pair_witness :
  unique_pairs (db_check_results Scenario.processed.2).
Proof.
  apply (process_results_one_row_per_pair Scenario.env Scenario.previous
           (make_zone_map Scenario.zones) 1 (make_target_map Scenario.targets)
           Scenario.target_results Scenario.seen_listed Scenario.processed.1).
  - vm_compute. reflexivity.
  - apply (bool_decide_unpack _). vm_compute. exact I.
Defined.

(** *** The counters *)

Lemma tally_nil c : tally c [] = c.
Proof. destruct c as [n1 n2 n3 n4]. unfold tally, count_where. cbn. f_equal; lia. Qed.

Lemma tally_app c o1 o2 : tally (tally c o1) o2 = tally c (o1 ++ o2).
Proof.
  unfold tally, count_where. cbn.
  rewrite !List.filter_app, !length_app, !Nat2Z.inj_add, !Z.add_assoc. done.
Qed.

Lemma counts_from_ret c : counts_from c [] (mret c).
Proof. intros s c' s'. munfold. intros [= <- <-]. by rewrite tally_nil. Qed.

Lemma counts_from_bind c o1 o2 (m : M Counts) (k : Counts -> M Counts) :
  counts_from c o1 m -> (forall c1, counts_from c1 o2 (k c1)) ->
  counts_from c (o1 ++ o2) (m ≫= k).
Proof.
  intros Hm Hk s c' s'. munfold. destruct (m s) as [[c1|e] s1] eqn:Hms; [|discriminate].
  intros Hks. rewrite (Hk _ _ _ _ Hks), (Hm _ _ _ Hms). apply tally_app.
Qed.

Lemma counts_from_for_counts {A} (body : Counts -> A -> M Counts)
    (f : A -> list observation) l c :
  (forall c x, counts_from c (f x) (body c x)) ->
  counts_from c (l ≫= f) (for_counts l body c).
Proof.
  intros Hbody. revert c. induction l as [|x l IH]; intros c; cbn.
  - apply counts_from_ret.
  - apply counts_from_bind; [apply Hbody|]. intros c'. apply IH.
Qed.

Lemma counts_from_process_results env prev zone_map run target_map target_results :
  counts_from (mkCounts 0 0 0 0) (observations zone_map target_map target_results)
    (process_results env prev zone_map run target_map target_results).
Proof.
  unfold process_results, observations. apply counts_from_for_counts. intros c result.
  unfold process_result. destruct (target_map !! target result) as [t|];
    [|apply counts_from_ret].
  apply counts_from_bind; [|intros c1; apply counts_from_bind]; [| |intros c2];
    apply counts_from_for_counts; intros c' entry.
  - unfold process_listed, observed. destruct (zone_map !! le_zone entry) as [zone|];
      [|apply counts_from_ret].
    intros s c'' s'. munfold.
    destruct (_save_check_result _ _ _ _ _ _ _ _) as [[[]|e] s1]; [|discriminate].
    case_bool_decide; munfold; cbn; intros [= <- <-]; destruct c' as [n1 n2 n3 n4]; unfold tally, count_where;
      cbn; f_equal; lia.
  - unfold process_blocked, observed. destruct (zone_map !! be_zone entry) as [zone|];
      [|apply counts_from_ret].
    intros s c'' s'. munfold.
    destruct (_save_check_result _ _ _ _ _ _ _ _) as [[[]|e] s1]; [|discriminate].
    case_bool_decide; munfold; cbn; intros [= <- <-]; destruct c' as [n1 n2 n3 n4]; unfold tally, count_where;
      cbn; f_equal; lia.
  - unfold process_error, observed. destruct (zone_map !! ee_zone entry) as [zone|];
      [|apply counts_from_ret].
    intros s c'' s'. munfold.
    destruct (_save_check_result _ _ _ _ _ _ _ _) as [[[]|e] s1]; [|discriminate].
    intros [= <- <-]. destruct c' as [n1 n2 n3 n4]. unfold tally, count_where. cbn.
    f_equal; lia.
Qed.

(** Every observation carries one of the three statuses that are stored. *)
Lemma observations_statuses zone_map target_map target_results :
  Forall (fun o : observation => o.2 = "listed" \/ o.2 = "blocked" \/ o.2 = "error")
    (observations zone_map target_map target_results).
Proof.
  apply Forall_forall. intros o. unfold observations.
  intros (result & Ho & _)%list_elem_of_bind.
  destruct (target_map !! target result) as [t|]; [|by apply elem_of_nil in Ho].
  rewrite !elem_of_app in Ho.
  destruct Ho as [Ho|[Ho|Ho]]; apply list_elem_of_bind in Ho as (entry & Ho & _);
    unfold observed in Ho; destruct (zone_map !! _); try (by apply elem_of_nil in Ho);
    apply list_elem_of_singleton in Ho as ->; cbn; auto.
Qed.

Lemma tally_partition obs :
  Forall (fun o : observation => o.2 = "listed" \/ o.2 = "blocked" \/ o.2 = "error") obs ->
  Z.of_nat (length obs)
  = count_where (fun o => String.eqb o.2 "listed") obs
    + count_where (fun o => String.eqb o.2 "blocked") obs
    + count_where (fun o => String.eqb o.2 "error") obs.
Proof.
  unfold count_where. induction 1 as [|o obs Ho _ IH]; [done|].
  cbn [List.filter length]. destruct Ho as [-> | [-> | ->]]; cbn; lia.
Qed.

(** X16: when the persist step returns, its counters are those of the
    observations it went through: every stored outcome is counted once in
    [total_checks] and once under its status, so that [total_checks] is the
    sum of the three other counters. Outcomes [not_listed] are not among
    them. *)
Theorem process_results_counts env prev zone_map run target_map target_results s c s' :
  process_results env prev zone_map run target_map target_results s = (Ok c, s') ->
  c = tally (mkCounts 0 0 0 0) (observations zone_map target_map target_results)
  /\ total_checks c = listed_count c + blocked_count c + error_count c
  /\ Forall (fun o : observation => o.2 <> "not_listed")
       (observations zone_map target_map target_results).
Proof.
  intros Hrun. apply counts_from_process_results in Hrun as ->.
  pose proof (observations_statuses zone_map target_map target_results) as Hst.
  split; [done|]. split.
  - cbn. rewrite (tally_partition _ Hst). lia.
  - eapply Forall_impl; [exact Hst|]. intros o [-> | [-> | ->]]; discriminate.
Qed.

Lemma process_results_counts_witness :
  mkCounts 3 1 1 1
  = tally (mkCounts 0 0 0 0)
      (observations (make_zone_map Scenario.zones) (make_target_map Scenario.targets)
         Scenario.target_results)
  /\ total_checks (mkCounts 3 1 1 1)
     = listed_count (mkCounts 3 1 1 1) + blocked_count (mkCounts 3 1 1 1)
       + error_count (mkCounts 3 1 1 1)
  /\ Forall (fun o : observation => o.2 <> "not_listed")
       (observations (make_zone_map Scenario.zones) (make_target_map Scenario.targets)
          Scenario.target_results).
Proof.
  apply (process_results_counts Scenario.env Scenario.previous
           (make_zone_map Scenario.zones) 1 (make_target_map Scenario.targets)
           Scenario.target_results Scenario.seen_listed (mkCounts 3 1 1 1)
           Scenario.processed.2).
  vm_compute. reflexivity.
Defined.

(** *** The rows written *)

Lemma persists_ret run {A} (a : A) : persists run (mret a) [].
Proof.
  intros s r s'. munfold. intros [= <- <-]. split; [done|]. split; [by left|done].
Qed.

Lemma persists_bind run {A B} (m : M A) (k : A -> M B) o1 o2 :
  persists run m o1 -> (forall a, persists run (k a) o2) ->
  persists run (m ≫= k) (o1 ++ o2).
Proof.
  intros Hm Hk s r s'. munfold.
  destruct (m s) as [[a|e] s1] eqn:Hms; destruct (Hm _ _ _ Hms) as (Hc1 & Hnew1 & Hold1).
  - intros Hks. destruct (Hk a _ _ _ Hks) as (Hc2 & Hnew2 & Hold2).
    split; [congruence|]. split.
    + intros row [Hrow|(o & Ho & Hw)]%Hnew2.
      * destruct (Hnew1 row Hrow) as [?|(o & Ho & Hw)]; [by left|].
        right. exists o. split; [|done]. apply elem_of_app. by left.
      * right. exists o. rewrite <- Hc1. split; [|done]. apply elem_of_app. by right.
    + intros row Hrow Hpair. rewrite fmap_app, elem_of_app in Hpair.
      apply Hold2; [apply Hold1; [done|]|]; tauto.
  - intros [= <- <-]. split; [done|]. split.
    + intros row [?|(o & Ho & Hw)]%Hnew1; [by left|].
      right. exists o. split; [|done]. apply elem_of_app. by left.
    + intros row Hrow Hpair. rewrite fmap_app, elem_of_app in Hpair.
      apply Hold1; [done|tauto].
Qed.

Lemma persists_for_counts run {A} (body : Counts -> A -> M Counts)
    (f : A -> list observation) l c :
  (forall c x, persists run (body c x) (f x)) ->
  persists run (for_counts l body c) (l ≫= f).
Proof.
  intros Hbody. revert c. induction l as [|x l IH]; intros c; cbn.
  - apply persists_ret.
  - apply persists_bind; [apply Hbody|]. intros c'. apply IH.
Qed.

Lemma persists_create_alert run target alert_type zone old new message :
  persists run (_create_alert target alert_type zone old new message) [].
Proof.
  intros s r s'. unfold _create_alert. munfold. intros [= <- <-].
  split; [done|]. split; [by left|done].
Qed.

(** Saving an outcome other than [not_listed] writes the row of its pair,
    stamped with the run and the time, and touches no other row. *)
Lemma persists_save env target zone status recs run reason :
  status <> "not_listed" ->
  persists run (_save_check_result env target zone status recs run reason)
    [(target, zone, status)].
Proof.
  intros Hst%String.eqb_neq s r s' Hsave.
  destruct (_save_check_result_table _ _ _ _ _ _ _ _ _ _ Hsave) as (_ & Hc & _ & _ & Htab).
  split; [done|]. destruct r as [[]|e]; [|rewrite Htab; split; [by left|done]].
  destruct (list_find _ _) as [[i found]|] eqn:Hfind; rewrite Htab.
  - apply list_find_Some in Hfind as (Hi & [Ht Hz] & _). split.
    + intros row (j & Hj)%list_elem_of_lookup_1.
      apply list_lookup_insert_Some in Hj as [(_ & <- & _)|[_ Hj]].
      * right. exists (target, zone, status). split; [by left|].
        unfold written_for, update_existing, pair_of, observed_pair. cbn.
        rewrite Ht, Hz, Hst. done.
      * left. by eapply list_elem_of_lookup_2.
    + intros row (j & Hj)%list_elem_of_lookup_1 Hpair.
      apply (list_elem_of_lookup_2 _ j). rewrite list_lookup_insert_ne; [done|].
      intros <-. apply Hpair. assert (row = found) as -> by congruence.
      unfold pair_of, observed_pair. cbn. rewrite Ht, Hz. by left.
  - split.
    + intros row [?|Hrow%list_elem_of_singleton]%elem_of_app; [by left|]. subst row.
      right. exists (target, zone, status). split; [by left|done].
    + intros row Hrow _. apply elem_of_app. by left.
Qed.

Lemma persists_process_results env prev zone_map run target_map target_results :
  persists run (process_results env prev zone_map run target_map target_results)
    (observations zone_map target_map target_results).
Proof.
  unfold process_results, observations. apply persists_for_counts. intros c result.
  unfold process_result. destruct (target_map !! target result) as [t|];
    [|apply persists_ret].
  apply persists_bind; [|intros c1; apply persists_bind]; [| |intros c2];
    apply persists_for_counts; intros c' entry.
  - unfold process_listed, observed. destruct (zone_map !! le_zone entry) as [zone|];
      [|apply persists_ret].
    apply (persists_bind _ _ _ [_] []); [by apply persists_save|]. intros _.
    apply (persists_bind _ _ _ [] []); [|intros; apply persists_ret].
    case_bool_decide; [apply persists_create_alert|apply persists_ret].
  - unfold process_blocked, observed. destruct (zone_map !! be_zone entry) as [zone|];
      [|apply persists_ret].
    apply (persists_bind _ _ _ [_] []); [by apply persists_save|]. intros _.
    apply (persists_bind _ _ _ [] []); [|intros; apply persists_ret].
    case_bool_decide; [apply persists_create_alert|apply persists_ret].
  - unfold process_error, observed. destruct (zone_map !! ee_zone entry) as [zone|];
      [|apply persists_ret].
    apply (persists_bind _ _ _ [_] []); [by apply persists_save|].
    intros; apply persists_ret.
Qed.

(** X17: what the persist step of a run does to the outcome table, also
    when it is cut short. Every row afterwards is a row from before or was
    written for one of the observations, with the status observed, the run
    and the time of the step, and that status is never [not_listed]. The row
    of a pair for which nothing was observed stays as it was: a pair whose
    last stored status is [listed] keeps it through a run that finds the
    target not listed on that zone. *)
Theorem process_results_rows env prev zone_map run target_map target_results s r s' :
  process_results env prev zone_map run target_map target_results s = (r, s') ->
  (forall row,
      row ∈ db_check_results s' ->
      row ∈ db_check_results s
      \/ cr_status row <> "not_listed"
         /\ exists o,
              o ∈ observations zone_map target_map target_results
              /\ written_for run (clock s) row o)
  /\ (forall row,
        row ∈ db_check_results s ->
        pair_of row ∉ observed_pair <$> observations zone_map target_map target_results ->
        row ∈ db_check_results s').
Proof.
  intros Hrun. apply persists_process_results in Hrun as (_ & Hnew & Hold).
  split; [|exact Hold].
  intros row [?|(o & Ho & Hw)]%Hnew; [by left|]. right. split; [|by exists o].
  pose proof (observations_statuses zone_map target_map target_results) as Hst.
  rewrite Forall_forall in Hst. destruct Hw as (_ & -> & _).
  destruct (Hst o Ho) as [-> | [-> | ->]]; discriminate.
Qed.

Lemma process_results_rows_witness :
  (forall row,
      row ∈ db_check_results Scenario.processed.2 ->
      row ∈ db_check_results Scenario.seen_listed
      \/ cr_status row <> "not_listed"
         /\ exists o,
              o ∈ observations (make_zone_map Scenario.zones)
                    (make_target_map Scenario.targets) Scenario.target_results
              /\ written_for 1 (clock Scenario.seen_listed) row o)
  /\ (forall row,
        row ∈ db_check_results Scenario.seen_listed ->
        pair_of row
        ∉ observed_pair
          <$> observations (make_zone_map Scenario.zones)
                (make_target_map Scenario.targets) Scenario.target_results ->
        row ∈ db_check_results Scenario.processed.2).
Proof.
  apply (process_results_rows Scenario.env Scenario.previous
           (make_zone_map Scenario.zones) 1 (make_target_map Scenario.targets)
           Scenario.target_results Scenario.seen_listed Scenario.processed.1).
  vm_compute. reflexivity.
Defined.
